(** * IsKoroneDown: the report / status / admin server

    A shallow embedding of the two server programs of the repository:

    - the current server (sessions, access gate, admin surface, settings,
      blacklist, [POST /report], [GET /status]);
    - the first server, [server.js] ([POST /report] and [GET /status] only),
      embedded in [Module Legacy].

    Modelling choices, all taken from the source:

    - The SQLite file is a record [DB] of its three tables.  [reports] and
      [blacklisted_ips] are lists of rows in rowid order, each with the
      counter that [AUTOINCREMENT] keeps; [settings] is a finite map, since
      [key] is the primary key of that table.
    - [Date.now()] is a parameter [now : Z] of the handlers that read the
      clock (milliseconds; JavaScript numbers are exact on this range).
    - Every [await db.get / db.all / db.run] is a step of the monad [M],
      which threads the database, the request's session and the list of SQL
      statements executed so far.
    - Body fields are modelled at their documented JSON type, or absent:
      strings as [option string], the flag [enabled] as [option bool].
    - Route matching, static file lookup and cookies belong to the framework;
      a request therefore carries its path together with the route the
      framework selected for it. *)

From Stdlib Require Import ZArith Lia Ascii String List Bool.
From Stdlib Require Import Sorted Permutation.
From stdpp Require Import base strings list gmap.

Local Open Scope Z_scope.

(** ** JavaScript string helpers *)

Module Js.

(** Truthiness of a string value: only the empty string is falsy. *)
Definition truthy (s : string) : bool :=
  match s with
  | EmptyString => false
  | String _ _ => true
  end.

(** Truthiness of a possibly absent string ([undefined] is falsy). *)
Definition truthy_opt (o : option string) : bool :=
  match o with
  | Some s => truthy s
  | None => false
  end.

(** [a || b] where [a] is a possibly absent string and [b] a string. *)
Definition or_else (a : option string) (b : string) : string :=
  match a with
  | Some s => if truthy s then s else b
  | None => b
  end.

(** [s.startsWith(p)] *)
Fixpoint startsWith (s p : string) {struct p} : bool :=
  match p with
  | EmptyString => true
  | String c p' =>
      match s with
      | EmptyString => false
      | String d s' => Ascii.eqb d c && startsWith s' p'
      end
  end.

(** [s.includes(sub)] *)
Fixpoint includes (s sub : string) {struct s} : bool :=
  startsWith s sub ||
  match s with
  | EmptyString => false
  | String _ s' => includes s' sub
  end.

(** Case folding of one character as the [i] flag of a regular expression
    applies it to an ASCII pattern: only [A]..[Z] are folded. *)
Definition lower_ascii (c : ascii) : ascii :=
  let n := nat_of_ascii c in
  if (Nat.leb 65 n && Nat.leb n 90)%bool then ascii_of_nat (n + 32) else c.

Fixpoint toLowerCase (s : string) : string :=
  match s with
  | EmptyString => EmptyString
  | String c s' => String (lower_ascii c) (toLowerCase s')
  end.

(** [arr.includes(x)] on an array of strings, [x] possibly [undefined]. *)
Definition array_includes (arr : list string) (x : option string) : bool :=
  match x with
  | Some s => existsb (String.eqb s) arr
  | None => false
  end.

End Js.

(** ** The database *)

(** A row of [reports (id, ip, timestamp)]. *)
Record Report := mkReport {
  rep_id : Z;
  rep_ip : string;
  rep_timestamp : Z
}.

(** A row of [blacklisted_ips (id, ip UNIQUE, timestamp, reason)]. *)
Record BlacklistEntry := mkBlacklistEntry {
  bl_id : Z;
  bl_ip : string;
  bl_timestamp : Z;
  bl_reason : string
}.

Record DB := mkDB {
  reports : list Report;
  reports_seq : Z;
  blacklisted_ips : list BlacklistEntry;
  blacklisted_ips_seq : Z;
  settings : gmap string string
}.

(** The SQL statements of the source, with their bound parameters. *)
Inductive Stmt :=
| CreateTables
| SeedSettings
| SelectMaintenanceMode
| SelectBlacklisted (ip : string)
| SelectForceStatus
| SelectRecentReport (ip : string) (since : Z)
| SelectReportsSince (since : Z)
| SelectReportsGrouped (since : Z)
| SelectBlacklistAll
| SelectSettingsAll
| InsertReport (ip : string) (timestamp : Z)
| InsertBlacklist (ip : string) (timestamp : Z) (reason : string)
| DeleteBlacklist (ip : string)
| UpdateForceStatus (value : string)
| UpdateMaintenanceMode (value : string).

(** [req.session]: absent, or an object whose [isAdmin] is set or not. *)
Record Session := mkSession { isAdmin : bool }.

(** What one request can read and change. *)
Record World := mkWorld {
  db : DB;
  session : option Session;
  trace : list Stmt
}.

(** ** The monad of handlers *)

Definition M (A : Type) : Type := World -> A * World.

#[export] Instance M_ret : MRet M := fun A (a : A) w => (a, w).
#[export] Instance M_bind : MBind M :=
  fun A B (k : A -> M B) (m : M A) w => let (a, w') := m w in k a w'.

Definition get_db : M DB := fun w => (db w, w).
Definition put_db (d : DB) : M unit :=
  fun w => (tt, mkWorld d (session w) (trace w)).
Definition get_session : M (option Session) := fun w => (session w, w).
Definition put_session (s : option Session) : M unit :=
  fun w => (tt, mkWorld (db w) s (trace w)).
Definition exec (s : Stmt) : M unit :=
  fun w => (tt, mkWorld (db w) (session w) (trace w ++ [s])).

(** ** Queries on the tables (the meaning of each SQL statement) *)

Module Sql.

(** [WHERE ip = ? AND timestamp > ?] on [reports]. *)
Definition recent_row (ip : string) (since : Z) (r : Report) : bool :=
  String.eqb (rep_ip r) ip && (rep_timestamp r >? since).

(** [WHERE timestamp > ?] on [reports]. *)
Definition in_window (since : Z) (r : Report) : bool :=
  rep_timestamp r >? since.

Definition insert_report (ip : string) (timestamp : Z) (d : DB) : DB :=
  let id := reports_seq d + 1 in
  mkDB (reports d ++ [mkReport id ip timestamp]) id
       (blacklisted_ips d) (blacklisted_ips_seq d) (settings d).

(** [WHERE ip = ?] on [blacklisted_ips]. *)
Definition has_ip (ip : string) (e : BlacklistEntry) : bool :=
  String.eqb (bl_ip e) ip.

Definition unique_violation : string :=
  "SQLITE_CONSTRAINT: UNIQUE constraint failed: blacklisted_ips.ip".

(** [INSERT INTO blacklisted_ips]: the [UNIQUE] column rejects a second
    row for the same [ip]; a rejected statement changes nothing. *)
Definition insert_blacklist (ip : string) (timestamp : Z) (reason : string)
    (d : DB) : string + DB :=
  if existsb (has_ip ip) (blacklisted_ips d) then inl unique_violation
  else
    let id := blacklisted_ips_seq d + 1 in
    inr (mkDB (reports d) (reports_seq d)
              (blacklisted_ips d ++ [mkBlacklistEntry id ip timestamp reason])
              id (settings d)).

Definition delete_blacklist (ip : string) (d : DB) : DB :=
  mkDB (reports d) (reports_seq d)
       (List.filter (fun e => negb (has_ip ip e)) (blacklisted_ips d))
       (blacklisted_ips_seq d) (settings d).

(** [UPDATE settings SET value = ? WHERE key = k]: only an existing row
    is changed. *)
Definition update_setting (k v : string) (d : DB) : DB :=
  mkDB (reports d) (reports_seq d) (blacklisted_ips d)
       (blacklisted_ips_seq d)
       (match settings d !! k with
        | Some _ => <[k := v]> (settings d)
        | None => settings d
        end).

(** [INSERT OR IGNORE INTO settings]: a row is added only if its key is
    free. *)
Definition insert_or_ignore (k v : string) (s : gmap string string)
    : gmap string string :=
  match s !! k with
  | Some _ => s
  | None => <[k := v]> s
  end.

Definition seed_settings (d : DB) : DB :=
  mkDB (reports d) (reports_seq d) (blacklisted_ips d)
       (blacklisted_ips_seq d)
       (insert_or_ignore "force_status" "auto"
          (insert_or_ignore "maintenance_mode" "false" (settings d))).

End Sql.

(** ** Requests and responses *)

(** [req.body] after [express.json()], at the fields the handlers read. *)
Record ReqBody := mkReqBody {
  body_username : option string;
  body_password : option string;
  body_status : option string;
  body_enabled : option bool;
  body_ip : option string;
  body_reason : option string
}.

Record Request := mkRequest {
  path : string;                            (* req.path *)
  header_x_forwarded_for : option string;   (* req.headers["x-forwarded-for"] *)
  socket_remoteAddress : string;            (* req.socket.remoteAddress *)
  body : ReqBody;                           (* req.body *)
  params_ip : string                        (* req.params.ip *)
}.

(** One row of the grouped dashboard query. *)
Record ReportGroup := mkReportGroup {
  g_ip : string;
  g_count : Z;
  g_last_report : Z
}.

Inductive Body :=
| JsonSuccess                                   (* { success: true } *)
| JsonError (error : string)                    (* { error } *)
| JsonStatus (status : string) (count : Z) (rows : list Report)
             (forced : bool)                    (* { status, count, reports, forced } *)
| JsonLegacyStatus (status : string) (count : Z)
                   (rows : list Report)         (* { status, count, reports } *)
| JsonDashboard (groups : list ReportGroup)
                (blacklistedIPs : list BlacklistEntry)
                (settingsObj : gmap string string)
| SendFile (file : string)                      (* res.sendFile *)
| NotFound.                                     (* the framework's own 404 *)

Record Response := mkResponse {
  code : Z;
  payload : Body
}.

(** What a middleware or handler does with a request: it sends a response,
    hands over with [next()], or throws. *)
Inductive Outcome :=
| Sent (r : Response)
| Next
| Thrown (error : string).

(** [res.status(code).json(b)]; [res.json(b)] is [json 200 b]. *)
Definition json (code : Z) (b : Body) : Outcome := Sent (mkResponse code b).

(** [process.env] at the two names the login handler reads. *)
Record Env := mkEnv {
  ADMIN_USERNAME : option string;
  ADMIN_PASSWORD : option string
}.

(** The routes registered by the source, as selected by the framework for a
    request that passed the access gate.  [StaticFile] stands for a file
    found by [express.static], [NoRoute] for a request nothing matches. *)
Inductive Route :=
| StaticFile
| PostAdminLogin
| PostAdminLogout
| GetAdmin
| GetAdminDashboard
| PostAdminSetStatus
| PostAdminMaintenance
| PostAdminBlacklist
| DeleteAdminBlacklist
| PostReport
| GetStatus
| NoRoute.

Definition up_phrase : string := "Korone is up".
Definition down_phrase : string := "Korone is probably down".
Definition rate_limit_message : string :=
  "You can only report once every 24 hours.".

(** ** Database calls of the handlers *)

(** [db.get("SELECT value FROM settings WHERE key = k")] : the value of the
    row, or nothing when there is no row. *)
Definition db_get_setting (stmt : Stmt) (k : string) : M (option string) :=
  exec stmt;; d ← get_db; mret (settings d !! k).

(** [db.get("SELECT 1 FROM blacklisted_ips WHERE ip = ?", [ip])] *)
Definition db_get_blacklisted (ip : string) : M bool :=
  exec (SelectBlacklisted ip);; d ← get_db;
  mret (existsb (Sql.has_ip ip) (blacklisted_ips d)).

(** [db.get("SELECT 1 FROM reports WHERE ip = ? AND timestamp > ? LIMIT 1")] *)
Definition db_get_recent (ip : string) (since : Z) : M bool :=
  exec (SelectRecentReport ip since);; d ← get_db;
  mret (existsb (Sql.recent_row ip since) (reports d)).

(** [db.all("SELECT * FROM reports WHERE timestamp > ?", [since])] *)
Definition db_all_reports_since (since : Z) : M (list Report) :=
  exec (SelectReportsSince since);; d ← get_db;
  mret (List.filter (Sql.in_window since) (reports d)).

(** [db.run("INSERT INTO reports (ip, timestamp) VALUES (?, ?)")] *)
Definition db_run_insert_report (ip : string) (timestamp : Z) : M unit :=
  exec (InsertReport ip timestamp);; d ← get_db;
  put_db (Sql.insert_report ip timestamp d).

(** [db.run("UPDATE settings SET value = ? WHERE key = k", [v])] *)
Definition db_run_update_setting (stmt : Stmt) (k v : string) : M unit :=
  exec stmt;; d ← get_db; put_db (Sql.update_setting k v d).

(** [db.run("INSERT INTO blacklisted_ips ...")], the one statement whose
    failure the source catches.  [fault] is a failure of the storage layer
    itself (its error message); without one the statement is rejected
    exactly when the [UNIQUE] column says so.  The result is the message of
    the error thrown, if any. *)
Definition db_run_insert_blacklist (fault : option string)
    (ip : string) (timestamp : Z) (reason : string) : M (option string) :=
  exec (InsertBlacklist ip timestamp reason);;
  match fault with
  | Some msg => mret (Some msg)
  | None =>
      d ← get_db;
      match Sql.insert_blacklist ip timestamp reason d with
      | inl msg => mret (Some msg)
      | inr d' => put_db d';; mret None
      end
  end.

(** [db.run("DELETE FROM blacklisted_ips WHERE ip = ?", [ip])] *)
Definition db_run_delete_blacklist (ip : string) : M unit :=
  exec (DeleteBlacklist ip);; d ← get_db; put_db (Sql.delete_blacklist ip d).

(** *** The dashboard queries *)

(** [GROUP BY ip] with [COUNT( * )] and [MAX(timestamp)]. *)
Fixpoint group_add (r : Report) (gs : list ReportGroup) : list ReportGroup :=
  match gs with
  | [] => [mkReportGroup (rep_ip r) 1 (rep_timestamp r)]
  | g :: gs' =>
      if String.eqb (g_ip g) (rep_ip r)
      then mkReportGroup (g_ip g) (g_count g + 1)
                         (Z.max (g_last_report g) (rep_timestamp r)) :: gs'
      else g :: group_add r gs'
  end.

Definition group_by_ip (rs : list Report) : list ReportGroup :=
  fold_left (fun gs r => group_add r gs) rs [].

(** [ORDER BY key DESC].  SQL leaves the order of rows with equal keys open;
    this sort keeps them in their previous order. *)
Fixpoint insert_desc {A} (key : A -> Z) (x : A) (l : list A) : list A :=
  match l with
  | [] => [x]
  | y :: l' => if key y <? key x then x :: l else y :: insert_desc key x l'
  end.

Definition order_by_desc {A} (key : A -> Z) (l : list A) : list A :=
  fold_right (insert_desc key) [] l.

Definition db_all_dashboard_reports (since : Z) : M (list ReportGroup) :=
  exec (SelectReportsGrouped since);; d ← get_db;
  mret (order_by_desc g_count
          (group_by_ip (List.filter (Sql.in_window since) (reports d)))).

Definition db_all_blacklist : M (list BlacklistEntry) :=
  exec SelectBlacklistAll;; d ← get_db;
  mret (order_by_desc bl_timestamp (blacklisted_ips d)).

Definition db_all_settings : M (gmap string string) :=
  exec SelectSettingsAll;; d ← get_db; mret (settings d).

(** ** The access gate (first middleware after the body parser) *)

Definition asset_extensions : list string :=
  ["png"; "jpg"; "jpeg"; "gif"; "svg"; "css"; "js"; "ttf"; "woff"; "woff2";
   "ico"].

(** [/\.(png|jpg|...|ico)$/i.test(p)]: at some position there is a dot, and
    what follows it up to the end of [p] is one of the extensions, letter
    case ignored. *)
Fixpoint isStaticAsset (p : string) : bool :=
  match p with
  | EmptyString => false
  | String c rest =>
      (Ascii.eqb c "." && existsb (String.eqb (Js.toLowerCase rest))
                                  asset_extensions)
      || isStaticAsset rest
  end.

(** [req.path.startsWith('/admin')] *)
Definition isAdminPath (p : string) : bool := Js.startsWith p "/admin".

(** [req.headers["x-forwarded-for"] || req.socket.remoteAddress] *)
Definition clientIP (req : Request) : string :=
  Js.or_else (header_x_forwarded_for req) (socket_remoteAddress req).

Definition maintenance_page : Outcome :=
  Sent (mkResponse 200 (SendFile "public/maintenance.html")).

Definition access_denied : Outcome := json 403 (JsonError "Access denied").

(** [maintenanceMode && maintenanceMode.value === 'true'] *)
Definition is_true_setting (row : option string) : bool :=
  match row with
  | Some v => String.eqb v "true"
  | None => false
  end.

(** The second half of the gate, reached when the maintenance check did not
    answer the request. *)
Definition checkBlacklist (req : Request) : M Outcome :=
  blacklisted ← db_get_blacklisted (clientIP req);
  if blacklisted && negb (isAdminPath (path req))
  then mret access_denied
  else mret Next.

Definition accessGate (req : Request) : M Outcome :=
  if negb (isAdminPath (path req)) && negb (isStaticAsset (path req)) then
    maintenanceMode ← db_get_setting SelectMaintenanceMode "maintenance_mode";
    if is_true_setting maintenanceMode
    then mret maintenance_page
    else checkBlacklist req
  else checkBlacklist req.

(** ** The session gate *)

Definition auth_required : Outcome :=
  json 401 (JsonError "Authentication required").

(** [req.session && req.session.isAdmin] *)
Definition authenticated (s : option Session) : bool :=
  match s with
  | Some s => isAdmin s
  | None => false
  end.

Definition requireAuth (next : M Outcome) : M Outcome :=
  s ← get_session;
  if authenticated s then next else mret auth_required.

(** ** Admin handlers *)

(** [a === b] on possibly absent strings. *)
Definition strict_eq (a b : option string) : bool :=
  match a, b with
  | Some x, Some y => String.eqb x y
  | None, None => true
  | _, _ => false
  end.

Definition adminLogin (env : Env) (req : Request) : M Outcome :=
  let username := body_username (body req) in
  let password := body_password (body req) in
  if negb (Js.truthy_opt username) || negb (Js.truthy_opt password) then
    mret (json 400 (JsonError "Username and password required"))
  else if strict_eq username (ADMIN_USERNAME env)
          && strict_eq password (ADMIN_PASSWORD env) then
    s ← get_session;
    match s with
    | Some _ => put_session (Some (mkSession true));; mret (json 200 JsonSuccess)
    | None => mret (Thrown "TypeError")
    end
  else mret (json 401 (JsonError "Invalid credentials")).

Definition adminLogout : M Outcome :=
  s ← get_session;
  match s with
  | Some _ => put_session None;; mret (json 200 JsonSuccess)
  | None => mret (Thrown "TypeError")
  end.

Definition adminPage : M Outcome :=
  mret (Sent (mkResponse 200 (SendFile "public/admin.html"))).

Definition adminDashboard (now : Z) : M Outcome :=
  let since := now - 24 * 60 * 60 * 1000 in
  groups ← db_all_dashboard_reports since;
  blacklistedIPs ← db_all_blacklist;
  settingsObj ← db_all_settings;
  mret (json 200 (JsonDashboard groups blacklistedIPs settingsObj)).

(** Past the validity test [status] is one of the three strings, which
    [default] then reads off. *)
Definition adminSetStatus (req : Request) : M Outcome :=
  let status := body_status (body req) in
  if negb (Js.array_includes ["up"; "down"; "auto"] status) then
    mret (json 400 (JsonError "Invalid status. Must be up, down, or auto"))
  else
    db_run_update_setting (UpdateForceStatus (default "" status))
                          "force_status" (default "" status);;
    mret (json 200 JsonSuccess).

Definition adminMaintenance (req : Request) : M Outcome :=
  let enabled := default false (body_enabled (body req)) in
  let value := if enabled then "true" else "false" in
  db_run_update_setting (UpdateMaintenanceMode value) "maintenance_mode" value;;
  mret (json 200 JsonSuccess).

(** Past the test [!ip] the address is a non-empty string, which [default]
    then reads off. *)
Definition adminBlacklistAdd (now : Z) (fault : option string) (req : Request)
    : M Outcome :=
  let ip := body_ip (body req) in
  let reason := body_reason (body req) in
  if negb (Js.truthy_opt ip) then
    mret (json 400 (JsonError "IP address required"))
  else
    error ← db_run_insert_blacklist fault (default "" ip) now
              (Js.or_else reason "No reason provided");
    match error with
    | None => mret (json 200 JsonSuccess)
    | Some message =>
        if Js.includes message "UNIQUE constraint failed"
        then mret (json 400 (JsonError "IP already blacklisted"))
        else mret (json 500 (JsonError "Database error"))
    end.

Definition adminBlacklistRemove (req : Request) : M Outcome :=
  db_run_delete_blacklist (params_ip req);;
  mret (json 200 JsonSuccess).

(** ** Public handlers *)

Definition report (now : Z) (req : Request) : M Outcome :=
  let ip := clientIP req in
  let since := now - 24 * 60 * 60 * 1000 in
  recent ← db_get_recent ip since;
  if (recent : bool) then mret (json 429 (JsonError rate_limit_message))
  else
    db_run_insert_report ip now;;
    mret (json 200 JsonSuccess).

(** [forceStatus && forceStatus.value !== 'auto'] *)
Definition is_forced (row : option string) : bool :=
  match row with
  | Some v => negb (String.eqb v "auto")
  | None => false
  end.

Definition status (now : Z) : M Outcome :=
  forceStatus ← db_get_setting SelectForceStatus "force_status";
  if is_forced forceStatus then
    let status := if strict_eq forceStatus (Some "up")
                  then up_phrase else down_phrase in
    mret (json 200 (JsonStatus status 0 [] true))
  else
    let since := now - 24 * 60 * 60 * 1000 in
    rows ← db_all_reports_since since;
    let count := Z.of_nat (length rows) in
    let status := if count >=? 30 then down_phrase else up_phrase in
    mret (json 200 (JsonStatus status count rows false)).

(** ** The application: gate, then the selected route *)

Definition handler (env : Env) (now : Z) (fault : option string)
    (rt : Route) (req : Request) : M Outcome :=
  match rt with
  | StaticFile =>
      mret (Sent (mkResponse 200 (SendFile (String.append "public" (path req)))))
  | PostAdminLogin => adminLogin env req
  | PostAdminLogout => adminLogout
  | GetAdmin => adminPage
  | GetAdminDashboard => requireAuth (adminDashboard now)
  | PostAdminSetStatus => requireAuth (adminSetStatus req)
  | PostAdminMaintenance => requireAuth (adminMaintenance req)
  | PostAdminBlacklist => requireAuth (adminBlacklistAdd now fault req)
  | DeleteAdminBlacklist => requireAuth (adminBlacklistRemove req)
  | PostReport => report now req
  | GetStatus => status now
  | NoRoute => mret (Sent (mkResponse 404 NotFound))
  end.

Definition app (env : Env) (now : Z) (fault : option string)
    (rt : Route) (req : Request) : M Outcome :=
  gate ← accessGate req;
  match gate with
  | Next => handler env now fault rt req
  | answered => mret answered
  end.

(** Start-up: the three [CREATE TABLE IF NOT EXISTS] keep existing tables
    (a fresh file has them empty), then the two settings are seeded. *)
Definition empty_db : DB := mkDB [] 0 [] 0 ∅.

Definition startup : M unit :=
  exec CreateTables;; exec SeedSettings;;
  d ← get_db; put_db (Sql.seed_settings d).

(** ** The first server, [server.js] *)

Module Legacy.

Definition report (now : Z) (req : Request) : M Outcome :=
  let ip := clientIP req in
  let since := now - 24 * 60 * 60 * 1000 in
  recent ← db_get_recent ip since;
  if (recent : bool) then mret (json 429 (JsonError rate_limit_message))
  else
    db_run_insert_report ip now;;
    mret (json 200 JsonSuccess).

Definition status (now : Z) : M Outcome :=
  let since := now - 24 * 60 * 60 * 1000 in
  rows ← db_all_reports_since since;
  let count := Z.of_nat (length rows) in
  let status := if count >=? 30 then down_phrase else up_phrase in
  mret (json 200 (JsonLegacyStatus status count rows)).

Definition startup : M unit := exec CreateTables.

End Legacy.

(** ** States of the running service *)

(** The database a request leaves behind, whatever else it did. *)
Definition db_after {A} (m : M A) (d : DB) (s : option Session) : DB :=
  db (snd (m (mkWorld d s []))).

(** The databases the service can be in: start-up on a fresh file, then any
    sequence of requests (any route, body, session, clock value and storage
    fault) and restarts. *)
Inductive reachable : DB -> Prop :=
| reach_startup : reachable (db_after startup empty_db None)
| reach_restart d : reachable d -> reachable (db_after startup d None)
| reach_request d env now fault rt req s :
    reachable d -> reachable (db_after (app env now fault rt req) d s).

(** The blacklist holds at most one entry per address. *)
Definition unique_addresses (d : DB) : Prop :=
  List.NoDup (List.map bl_ip (blacklisted_ips d)).

(** The reports table holds a row for [A] newer than [T - 86400000]. *)
Definition has_recent (A : string) (T : Z) (d : DB) : Prop :=
  exists r, In r (reports d) /\ rep_ip r = A /\ rep_timestamp r > T - 86400000.

(** The blacklist holds an entry for [A]. *)
Definition blacklisted (A : string) (d : DB) : Prop :=
  exists e, In e (blacklisted_ips d) /\ bl_ip e = A.

(** The rows of the last 24 hours, as [GET /status] selects them. *)
Definition qualifying (now : Z) (d : DB) : list Report :=
  List.filter (fun r => rep_timestamp r >? now - 86400000) (reports d).

(** The statements that change a table. *)
Definition is_write (s : Stmt) : bool :=
  match s with
  | InsertReport _ _ | InsertBlacklist _ _ _ | DeleteBlacklist _
  | UpdateForceStatus _ | UpdateMaintenanceMode _
  | CreateTables | SeedSettings => true
  | _ => false
  end.

(** The database [d] with the row [k] of [settings] holding [v]. *)
Definition with_setting (k v : string) (d : DB) : DB :=
  mkDB (reports d) (reports_seq d) (blacklisted_ips d)
       (blacklisted_ips_seq d) (<[k := v]> (settings d)).

(** The ways one request can change the database: not at all, or by one of
    the five writing statements of the handlers. *)
Inductive db_change (d : DB) : DB -> Prop :=
| change_none : db_change d d
| change_report ip ts : db_change d (Sql.insert_report ip ts d)
| change_setting k v : db_change d (Sql.update_setting k v d)
| change_blacklist ip ts reason d' :
    Sql.insert_blacklist ip ts reason d = inr d' -> db_change d d'
| change_unblacklist ip : db_change d (Sql.delete_blacklist ip d).

(** *** Sample data for the worked instances *)

Module Sample.

Definition no_body : ReqBody := mkReqBody None None None None None None.

Definition from (p addr : string) : Request :=
  mkRequest p None addr no_body "".

Definition with_status (v : option string) : Request :=
  mkRequest "/admin/set-status" None "10.0.0.1"
            (mkReqBody None None v None None None) "".

Definition with_ip (a r : option string) : Request :=
  mkRequest "/admin/blacklist" None "10.0.0.1"
            (mkReqBody None None None None a r) "".

Definition removing (a : string) : Request :=
  mkRequest (String.append "/admin/blacklist/" a) None "10.0.0.1" no_body a.

Definition env : Env := mkEnv (Some "root") (Some "secret").

Definition admin : option Session := Some (mkSession true).
Definition visitor : option Session := Some (mkSession false).

(** The database right after start-up on a fresh file. *)
Definition seeded : DB := db_after startup empty_db None.

(** [n] reports at time [t], from distinct rows of one address. *)
Fixpoint rows (n : nat) (t : Z) : list Report :=
  match n with
  | O => []
  | S k => rows k t ++ [mkReport (Z.of_nat n) "203.0.113.9" t]
  end.

Definition with_reports (n : nat) (t : Z) : DB :=
  mkDB (rows n t) (Z.of_nat n) [] 0 (settings seeded).

Definition banned (a : string) : DB :=
  mkDB [] 0 [mkBlacklistEntry 1 a 1700000000000 "abuse"] 1 (settings seeded).

Definition world (d : DB) (s : option Session) : World := mkWorld d s [].

End Sample.

(** ** Notions for the remaining handlers *)

(** What one request does to the database, by the route it was given and by
    whether its session is authenticated: nothing, or the one writing
    statement of that route, run under the conditions the handler tests
    first. *)
Inductive db_step (auth : bool) (rt : Route) (d : DB) : DB -> Prop :=
| step_none : db_step auth rt d d
| step_report ip now :
    rt = PostReport ->
    existsb (Sql.recent_row ip (now - 24 * 60 * 60 * 1000)) (reports d) = false ->
    db_step auth rt d (Sql.insert_report ip now d)
| step_force_status v :
    auth = true -> rt = PostAdminSetStatus -> In v ["up"; "down"; "auto"] ->
    db_step auth rt d (Sql.update_setting "force_status" v d)
| step_maintenance v :
    auth = true -> rt = PostAdminMaintenance -> In v ["true"; "false"] ->
    db_step auth rt d (Sql.update_setting "maintenance_mode" v d)
| step_blacklist ip now reason d' :
    auth = true -> rt = PostAdminBlacklist -> ip <> "" -> reason <> "" ->
    Sql.insert_blacklist ip now reason d = inr d' ->
    db_step auth rt d d'
| step_unblacklist ip :
    auth = true -> rt = DeleteAdminBlacklist ->
    db_step auth rt d (Sql.delete_blacklist ip d).


(** The ids of a table are those its counter has handed out so far: they
    are positive, at most the counter, and strictly increasing along the
    table. *)
Fixpoint ids_below (bound : Z) (ids : list Z) : Prop :=
  match ids with
  | [] => True
  | i :: rest => 0 < i <= bound /\ Forall (fun j => i < j) rest
                 /\ ids_below bound rest
  end.

(** The number of rows of address [a]. *)
Definition count_ip (a : string) (rows : list Report) : Z :=
  Z.of_nat (length (List.filter (fun r => String.eqb (rep_ip r) a) rows)).

(** [g] is the summary of the rows of its address: their number and the
    newest of their timestamps. *)
Definition summarises (rows : list Report) (g : ReportGroup) : Prop :=
  g_count g = count_ip (g_ip g) rows
  /\ (exists r, In r rows /\ rep_ip r = g_ip g
                /\ rep_timestamp r = g_last_report g)
  /\ (forall r, In r rows -> rep_ip r = g_ip g ->
                rep_timestamp r <= g_last_report g).

(** Highest key first. *)
Definition descending {A} (key : A -> Z) (l : list A) : Prop :=
  Sorted (fun x y => key x >= key y) l.

(** The two settings rows hold values of their kind, and there is no other
    row. *)
Definition settings_well_formed (d : DB) : Prop :=
  (exists v, settings d !! "force_status" = Some v
             /\ In v ["up"; "down"; "auto"])
  /\ (exists v, settings d !! "maintenance_mode" = Some v
                /\ In v ["true"; "false"])
  /\ (forall k, is_Some (settings d !! k) ->
                k = "force_status" \/ k = "maintenance_mode").

(** [gs] is the grouping of [rows] by address: one group per address that
    occurs, each the summary of the rows of its address. *)
Definition grouped (rows : list Report) (gs : list ReportGroup) : Prop :=
  List.NoDup (List.map g_ip gs)
  /\ Forall (summarises rows) gs
  /\ (forall r, In r rows -> In (rep_ip r) (List.map g_ip gs)).

(** *** Further sample requests *)

Module Visit.

Definition login_as (u p : option string) : Request :=
  mkRequest "/admin/login" None "10.0.0.1"
            (mkReqBody u p None None None None) "".

Definition toggling (flag : option bool) : Request :=
  mkRequest "/admin/maintenance" None "10.0.0.1"
            (mkReqBody None None None flag None None) "".

Definition forwarded (p h addr : string) : Request :=
  mkRequest p (Some h) addr Sample.no_body "".

(** Four reports, the first too old for the window that ends at
    1700000000000, the second address twice within it; two blacklist
    entries. *)
Definition ledger : DB :=
  mkDB [mkReport 1 "198.51.100.7" 1699000000000;
        mkReport 2 "198.51.100.7" 1699950000000;
        mkReport 3 "203.0.113.9" 1699960000000;
        mkReport 4 "203.0.113.9" 1699990000000]
       4
       [mkBlacklistEntry 1 "192.0.2.1" 1699000000000 "spam";
        mkBlacklistEntry 3 "192.0.2.3" 1699900000000 "abuse"]
       3 (settings Sample.seeded).

End Visit.

(** * Properties *)

(** Runs the monadic steps of a handler applied to a world. *)
Ltac run :=
  cbv [mbind M_bind mret M_ret exec get_db put_db get_session put_session
       db_get_setting db_get_blacklisted db_get_recent db_all_reports_since
       db_run_insert_report db_run_update_setting db_run_insert_blacklist
       db_run_delete_blacklist json];
  cbn [fst snd db session trace].

(** ** Small facts about the helpers *)

Lemma day_ms (now : Z) : now - 24 * 60 * 60 * 1000 = now - 86400000.
Proof. lia. Qed.

Lemma phrases_differ : up_phrase <> down_phrase.
Proof. discriminate. Qed.

Lemma recent_row_true (A : string) (since : Z) (r : Report) :
  Sql.recent_row A since r = true <-> rep_ip r = A /\ rep_timestamp r > since.
Proof.
  unfold Sql.recent_row.
  rewrite andb_true_iff, String.eqb_eq, Z.gtb_gt. reflexivity.
Qed.

Lemma has_recent_existsb (A : string) (T : Z) (d : DB) :
  existsb (Sql.recent_row A (T - 24 * 60 * 60 * 1000)) (reports d) = true
  <-> has_recent A T d.
Proof.
  rewrite day_ms, existsb_exists. unfold has_recent.
  split; intros [r [Hin Hr]]; exists r.
  - apply recent_row_true in Hr. tauto.
  - split; [tauto | apply recent_row_true; tauto].
Qed.

Lemma blacklisted_existsb (A : string) (d : DB) :
  existsb (Sql.has_ip A) (blacklisted_ips d) = true <-> blacklisted A d.
Proof.
  rewrite existsb_exists. unfold blacklisted, Sql.has_ip.
  split; intros [e [Hin He]]; exists e; split; trivial.
  - now apply String.eqb_eq.
  - now apply String.eqb_eq.
Qed.

Lemma qualifying_window (now : Z) (d : DB) :
  List.filter (Sql.in_window (now - 24 * 60 * 60 * 1000)) (reports d)
  = qualifying now d.
Proof. unfold qualifying, Sql.in_window. now rewrite day_ms. Qed.

Lemma qualifying_In (now : Z) (d : DB) (r : Report) :
  In r (qualifying now d)
  <-> In r (reports d) /\ rep_timestamp r > now - 86400000.
Proof. unfold qualifying. rewrite filter_In, Z.gtb_gt. reflexivity. Qed.

(** The paths the gate tells apart, on the examples of the specification. *)
Example static_asset_paths :
  List.map isStaticAsset
    ["/logo.png"; "/LOGO.PNG"; "/fonts/a.woff2"; "/app.js"; "/index.html";
     "/"; "/report"; "/a.js/b"; "/x.png?"]
  = [true; true; true; true; false; false; false; false; false].
Proof. reflexivity. Qed.

Example admin_paths :
  List.map isAdminPath
    ["/admin"; "/admin/login"; "/admin/blacklist/1.2.3.4"; "/administrator";
     "/Admin"; "/report"; "/status"]
  = [true; true; true; true; false; false; false].
Proof. reflexivity. Qed.

Example client_address :
  clientIP (mkRequest "/report" (Some "203.0.113.9") "10.0.0.1"
                      Sample.no_body "") = "203.0.113.9"
  /\ clientIP (mkRequest "/report" (Some "") "10.0.0.1" Sample.no_body "")
     = "10.0.0.1"
  /\ clientIP (mkRequest "/report" None "10.0.0.1" Sample.no_body "")
     = "10.0.0.1".
Proof. repeat split. Qed.

Example unique_violation_is_recognised :
  Js.includes Sql.unique_violation "UNIQUE constraint failed" = true.
Proof. reflexivity. Qed.

(** ** What each public handler computes *)

Lemma report_run (now : Z) (req : Request) (w : World) :
  report now req w =
  let ip := clientIP req in
  let since := now - 24 * 60 * 60 * 1000 in
  if existsb (Sql.recent_row ip since) (reports (db w))
  then (json 429 (JsonError rate_limit_message),
        mkWorld (db w) (session w) (trace w ++ [SelectRecentReport ip since]))
  else (json 200 JsonSuccess,
        mkWorld (Sql.insert_report ip now (db w)) (session w)
                ((trace w ++ [SelectRecentReport ip since])
                   ++ [InsertReport ip now])).
Proof.
  unfold report. run.
  destruct (existsb _ (reports (db w))); reflexivity.
Qed.

Lemma status_run (now : Z) (w : World) :
  status now w =
  let row := settings (db w) !! "force_status" in
  let w1 := mkWorld (db w) (session w) (trace w ++ [SelectForceStatus]) in
  if is_forced row
  then (json 200 (JsonStatus (if strict_eq row (Some "up")
                              then up_phrase else down_phrase) 0 [] true), w1)
  else
    let rows := qualifying now (db w) in
    let count := Z.of_nat (length rows) in
    (json 200 (JsonStatus (if count >=? 30 then down_phrase else up_phrase)
                          count rows false),
     mkWorld (db w) (session w)
             ((trace w ++ [SelectForceStatus])
                ++ [SelectReportsSince (now - 24 * 60 * 60 * 1000)])).
Proof.
  unfold status. run.
  destruct (is_forced _); [reflexivity |].
  cbv zeta. now rewrite qualifying_window.
Qed.

Lemma legacy_status_run (now : Z) (w : World) :
  Legacy.status now w =
  let rows := qualifying now (db w) in
  let count := Z.of_nat (length rows) in
  (json 200 (JsonLegacyStatus (if count >=? 30 then down_phrase else up_phrase)
                              count rows),
   mkWorld (db w) (session w)
           (trace w ++ [SelectReportsSince (now - 24 * 60 * 60 * 1000)])).
Proof.
  unfold Legacy.status. run. cbv zeta. now rewrite qualifying_window.
Qed.

(** ** C1: the 24-hour limit of [POST /report] *)

Lemma has_recent_after_insert (A : string) (T T' : Z) (d : DB) :
  has_recent A T' (Sql.insert_report A T d)
  <-> has_recent A T' d \/ T > T' - 86400000.
Proof.
  unfold has_recent, Sql.insert_report. cbn [reports]. split.
  - intros [r [Hin [Hip Hts]]]. apply in_app_or in Hin as [Hin | [<- | []]].
    + left. now exists r.
    + right. exact Hts.
  - intros [[r [Hin Hr]] | Hts].
    + exists r. split; [apply in_or_app; now left | exact Hr].
    + eexists. split; [apply in_or_app; right; left; reflexivity |].
      cbn. split; [reflexivity | exact Hts].
Qed.

Lemma has_recent_mono (A : string) (T T' : Z) (d : DB) :
  T <= T' -> has_recent A T' d -> has_recent A T d.
Proof.
  intros Hle [r [Hin [Hip Hts]]]. exists r. repeat split; trivial. lia.
Qed.

(** C1.  For every address [A] and submission time [T]: if the reports table
    holds a row for [A] with timestamp strictly greater than [T - 86400000],
    [POST /report] answers 429 with the message "You can only report once
    every 24 hours." and writes nothing; otherwise it appends exactly one row
    [{A, T}] and answers success.  After such a success, a second report from
    [A] at any time strictly between [T] and [T + 86400000] is rate-limited,
    and one at [T + 86400000 + 1] succeeds.  The first server's handler is
    the same function. *)
Theorem report_once_per_day (A : string) (T : Z) (req : Request) (w : World) :
  clientIP req = A ->
  (has_recent A T (db w) ->
     fst (report T req w)
       = json 429 (JsonError "You can only report once every 24 hours.")
     /\ db (snd (report T req w)) = db w)
  /\ (~ has_recent A T (db w) ->
      let w1 := snd (report T req w) in
      fst (report T req w) = json 200 JsonSuccess
      /\ reports (db w1)
           = reports (db w) ++ [mkReport (reports_seq (db w) + 1) A T]
      /\ blacklisted_ips (db w1) = blacklisted_ips (db w)
      /\ settings (db w1) = settings (db w)
      /\ (forall T' req', clientIP req' = A -> T < T' < T + 86400000 ->
            fst (report T' req' w1)
              = json 429 (JsonError "You can only report once every 24 hours.")
            /\ db (snd (report T' req' w1)) = db w1)
      /\ (forall req', clientIP req' = A ->
            fst (report (T + 86400000 + 1) req' w1) = json 200 JsonSuccess))
  /\ Legacy.report T req w = report T req w.
Proof.
  intros HA. split; [| split; [| reflexivity]].
  - intros Hrec. rewrite report_run. cbv zeta. rewrite HA.
    apply has_recent_existsb in Hrec. rewrite Hrec. split; reflexivity.
  - intros Hnew. cbv zeta.
    assert (Hex : existsb (Sql.recent_row A (T - 24 * 60 * 60 * 1000))
                          (reports (db w)) = false).
    { apply not_true_iff_false. intros H. now apply has_recent_existsb in H. }
    rewrite report_run. cbv zeta. rewrite HA, Hex. cbn [fst snd db].
    split; [reflexivity |]. split; [reflexivity |].
    split; [reflexivity |]. split; [reflexivity |]. split.
    + intros T' req' HA' HT'. rewrite report_run. cbv zeta. rewrite HA'.
      cbn [db].
      assert (Hrec : existsb (Sql.recent_row A (T' - 24 * 60 * 60 * 1000))
                       (reports (Sql.insert_report A T (db w))) = true).
      { apply has_recent_existsb, has_recent_after_insert. right. lia. }
      rewrite Hrec. split; reflexivity.
    + intros req' HA'. rewrite report_run. cbv zeta. rewrite HA'. cbn [db].
      assert (Hno : existsb
                      (Sql.recent_row A (T + 86400000 + 1 - 24 * 60 * 60 * 1000))
                      (reports (Sql.insert_report A T (db w))) = false).
      { apply not_true_iff_false. intros H.
        apply has_recent_existsb, has_recent_after_insert in H as [H | H].
        - apply Hnew. apply (has_recent_mono A T (T + 86400000 + 1)); [lia | exact H].
        - lia. }
      rewrite Hno. reflexivity.
Qed.

(** A first report on the fresh database, then the limit at work. *)
Lemma report_once_per_day_witness :
  let req := Sample.from "/report" "198.51.100.7" in
  let w := Sample.world Sample.seeded None in
  let w1 := snd (report 1700000000000 req w) in
  fst (report 1700000000000 req w) = json 200 JsonSuccess
  /\ fst (report 1700086399999 req w1)
       = json 429 (JsonError "You can only report once every 24 hours.")
  /\ fst (report 1700086400001 req w1) = json 200 JsonSuccess
  /\ fst (report 1700000000001 req w1)
       = json 429 (JsonError "You can only report once every 24 hours.").
Proof.
  cbv zeta.
  pose proof (report_once_per_day "198.51.100.7" 1700000000000
                (Sample.from "/report" "198.51.100.7")
                (Sample.world Sample.seeded None) eq_refl) as [_ [Hnew _]].
  assert (Hfresh : ~ has_recent "198.51.100.7" 1700000000000
                     (db (Sample.world Sample.seeded None))).
  { intros [r [Hin _]]. exact Hin. }
  destruct (Hnew Hfresh) as [Hok [_ [_ [_ [Hlim Hagain]]]]].
  split; [exact Hok |]. split.
  - apply (Hlim 1700086399999 (Sample.from "/report" "198.51.100.7") eq_refl).
    lia.
  - split.
    + apply (Hagain (Sample.from "/report" "198.51.100.7") eq_refl).
    + pose proof (report_once_per_day "198.51.100.7" 1700000000001
                    (Sample.from "/report" "198.51.100.7")
                    (snd (report 1700000000000
                            (Sample.from "/report" "198.51.100.7")
                            (Sample.world Sample.seeded None))) eq_refl)
        as [Hrec _].
      apply Hrec. eexists. split; [left; reflexivity |].
      split; [reflexivity | cbn; lia].
Defined.

(** ** C2: [GET /status] in automatic mode *)

(** C2.  When [force_status] is "auto", [GET /status] takes the report rows
    whose timestamp is strictly greater than [now - 86400000], counts them,
    answers the down-phrase exactly when the count is at least 30 and the
    up-phrase otherwise, and puts the count, the whole list of those rows and
    [forced: false] in the response; nothing is written.  The first server
    computes the same status, count and rows. *)
Theorem status_auto_threshold (now : Z) (w : World) :
  settings (db w) !! "force_status" = Some "auto" ->
  let rows := qualifying now (db w) in
  let count := Z.of_nat (length rows) in
  (forall r, In r rows
             <-> In r (reports (db w)) /\ rep_timestamp r > now - 86400000)
  /\ exists st,
       fst (status now w) = json 200 (JsonStatus st count rows false)
       /\ (st = "Korone is probably down" <-> count >= 30)
       /\ (st = "Korone is up" <-> count < 30)
       /\ db (snd (status now w)) = db w
       /\ fst (Legacy.status now w) = json 200 (JsonLegacyStatus st count rows).
Proof.
  intros Hauto rows count. split; [apply qualifying_In |].
  exists (if count >=? 30 then down_phrase else up_phrase).
  rewrite status_run, legacy_status_run. cbv zeta. rewrite Hauto.
  cbn [is_forced String.eqb Ascii.eqb Bool.eqb negb fst snd db].
  fold rows. fold count.
  split; [reflexivity |].
  destruct (Z.geb_spec count 30) as [Hge | Hlt].
  - split; [split; [lia | reflexivity] |].
    split; [split; [discriminate | lia] |]. split; reflexivity.
  - split; [split; [discriminate | lia] |].
    split; [split; [lia | reflexivity] |]. split; reflexivity.
Qed.

(** The boundary: 30 qualifying rows give the down-phrase, 29 the up-phrase. *)
Lemma status_auto_threshold_witness :
  fst (status 1700000000000
         (Sample.world (Sample.with_reports 30 1699999999999) None))
  = json 200 (JsonStatus "Korone is probably down" 30
                         (Sample.rows 30 1699999999999) false)
  /\ fst (status 1700000000000
            (Sample.world (Sample.with_reports 29 1699999999999) None))
     = json 200 (JsonStatus "Korone is up" 29
                            (Sample.rows 29 1699999999999) false).
Proof.
  split.
  - destruct (status_auto_threshold 1700000000000
                (Sample.world (Sample.with_reports 30 1699999999999) None)
                eq_refl) as [_ [st [Heq [Hdown _]]]].
    assert (Hst : st = "Korone is probably down").
    { apply Hdown. vm_compute. discriminate. }
    rewrite Hst in Heq. exact Heq.
  - destruct (status_auto_threshold 1700000000000
                (Sample.world (Sample.with_reports 29 1699999999999) None)
                eq_refl) as [_ [st [Heq [_ [Hup _]]]]].
    assert (Hst : st = "Korone is up").
    { apply Hup. vm_compute. reflexivity. }
    rewrite Hst in Heq. exact Heq.
Defined.

(** ** C3: [GET /status] under a forced status *)

(** C3.  Whenever the [force_status] setting has a value other than "auto",
    [GET /status] answers the up-phrase if the value is "up" and the
    down-phrase otherwise, with [count: 0], [reports: []] and
    [forced: true], whatever the reports table holds: the only statement
    executed is the read of the setting, and nothing is written. *)
Theorem status_forced_override (now : Z) (w : World) (v : string) :
  settings (db w) !! "force_status" = Some v ->
  v <> "auto" ->
  fst (status now w)
    = json 200 (JsonStatus (if String.eqb v "up" then "Korone is up"
                            else "Korone is probably down") 0 [] true)
  /\ db (snd (status now w)) = db w
  /\ trace (snd (status now w)) = trace w ++ [SelectForceStatus].
Proof.
  intros Hrow Hv. rewrite status_run. cbv zeta. rewrite Hrow.
  cbn [is_forced strict_eq].
  apply String.eqb_neq in Hv. rewrite Hv. cbn [negb fst snd db trace].
  repeat split.
Qed.

(** Forced up with a thousand recent reports, and forced down with none. *)
Lemma status_forced_override_witness :
  fst (status 1700000000000
         (Sample.world (with_setting "force_status" "up"
                          (Sample.with_reports 1000 1699999999999)) None))
  = json 200 (JsonStatus "Korone is up" 0 [] true)
  /\ fst (status 1700000000000
            (Sample.world (with_setting "force_status" "down"
                             Sample.seeded) None))
     = json 200 (JsonStatus "Korone is probably down" 0 [] true).
Proof.
  split.
  - refine (proj1 (status_forced_override 1700000000000
              (Sample.world (with_setting "force_status" "up"
                               (Sample.with_reports 1000 1699999999999)) None)
              "up" eq_refl _)).
    discriminate.
  - refine (proj1 (status_forced_override 1700000000000
              (Sample.world (with_setting "force_status" "down"
                               Sample.seeded) None)
              "down" eq_refl _)).
    discriminate.
Defined.

(** ** C4: the access gate *)

Lemma is_true_setting_iff (row : option string) :
  is_true_setting row = true <-> row = Some "true".
Proof.
  destruct row as [v |]; cbn.
  - rewrite String.eqb_eq. split; congruence.
  - split; discriminate.
Qed.

Lemma checkBlacklist_run (req : Request) (w : World) :
  checkBlacklist req w =
  (if existsb (Sql.has_ip (clientIP req)) (blacklisted_ips (db w))
      && negb (isAdminPath (path req))
   then access_denied else Next,
   mkWorld (db w) (session w) (trace w ++ [SelectBlacklisted (clientIP req)])).
Proof.
  unfold checkBlacklist. run.
  destruct (existsb _ _ && _); reflexivity.
Qed.

Lemma accessGate_run (req : Request) (w : World) :
  accessGate req w =
  if negb (isAdminPath (path req)) && negb (isStaticAsset (path req)) then
    if is_true_setting (settings (db w) !! "maintenance_mode")
    then (maintenance_page,
          mkWorld (db w) (session w) (trace w ++ [SelectMaintenanceMode]))
    else checkBlacklist req
           (mkWorld (db w) (session w) (trace w ++ [SelectMaintenanceMode]))
  else checkBlacklist req w.
Proof.
  unfold accessGate. run.
  destruct (negb _ && negb _); [| reflexivity].
  destruct (is_true_setting _); reflexivity.
Qed.

Lemma accessGate_reads_only (req : Request) (w : World) :
  db (snd (accessGate req w)) = db w
  /\ session (snd (accessGate req w)) = session w.
Proof.
  rewrite accessGate_run.
  destruct (negb _ && negb _); [destruct (is_true_setting _) |];
    rewrite ?checkBlacklist_run; split; reflexivity.
Qed.

Lemma accessGate_admin (req : Request) (w : World) :
  isAdminPath (path req) = true -> fst (accessGate req w) = Next.
Proof.
  intros Hadm. rewrite accessGate_run, Hadm. cbn [negb andb].
  rewrite checkBlacklist_run, Hadm. cbn [negb fst].
  now rewrite andb_false_r.
Qed.

(** C4.  The gate writes nothing, and decides in this order.  If the path is
    neither an admin path nor a static-asset path and [maintenance_mode] is
    "true", it sends the maintenance page without looking at the blacklist.
    Otherwise, if the resolved client address is blacklisted and the path is
    not an admin path (a static-asset path is not exempt), it answers 403
    "Access denied".  Otherwise the request passes downstream; an admin path
    always does. *)
Theorem accessGate_order (req : Request) (w : World) :
  let p := path req in
  let addr := clientIP req in
  let out := accessGate req w in
  let gated := isAdminPath p = false /\ isStaticAsset p = false
               /\ settings (db w) !! "maintenance_mode" = Some "true" in
  (db (snd out) = db w /\ session (snd out) = session w
   /\ exists reads, trace (snd out) = trace w ++ reads
                    /\ existsb is_write reads = false)
  /\ (gated ->
      fst out = Sent (mkResponse 200 (SendFile "public/maintenance.html"))
      /\ trace (snd out) = trace w ++ [SelectMaintenanceMode])
  /\ (~ gated -> blacklisted addr (db w) -> isAdminPath p = false ->
      fst out = json 403 (JsonError "Access denied"))
  /\ (~ gated -> ~ (blacklisted addr (db w) /\ isAdminPath p = false) ->
      fst out = Next)
  /\ (isAdminPath p = true ->
      fst out = Next /\ trace (snd out) = trace w ++ [SelectBlacklisted addr])
  /\ (isAdminPath p = false -> isStaticAsset p = false -> ~ gated ->
      trace (snd out)
        = trace w ++ [SelectMaintenanceMode; SelectBlacklisted addr]).
Proof.
  cbv zeta. rewrite accessGate_run.
  pose proof (blacklisted_existsb (clientIP req) (db w)) as Hbl.
  pose proof (is_true_setting_iff (settings (db w) !! "maintenance_mode"))
    as Hm.
  destruct (isAdminPath (path req)) eqn:Hadm;
    destruct (isStaticAsset (path req)) eqn:Hst;
    destruct (is_true_setting _) eqn:Hmaint;
    destruct (existsb _ (blacklisted_ips (db w))) eqn:Hex;
    cbn [negb andb]; rewrite ?checkBlacklist_run;
    cbn [fst snd db session trace]; rewrite ?Hadm, ?Hex;
    cbn [negb andb fst snd db session trace];
    (split;
     [ split; [reflexivity |]; split; [reflexivity |];
       first [ exists [SelectMaintenanceMode]; split; reflexivity
             | exists [SelectBlacklisted (clientIP req)]; split; reflexivity
             | exists [SelectMaintenanceMode; SelectBlacklisted (clientIP req)];
               split; [now rewrite <- app_assoc | reflexivity] ]
     | ]);
    repeat split; intros;
    repeat match goal with
           | H : _ /\ _ |- _ => destruct H
           end;
    try reflexivity; try discriminate; try congruence;
    try (now rewrite <- app_assoc);
    try (exfalso; intuition congruence).
Qed.

(** A blacklisted address during maintenance: a page gets the maintenance
    page, an image gets 403, the login gets through; without maintenance
    another address gets through. *)
Lemma accessGate_order_witness :
  let busy := Sample.world (with_setting "maintenance_mode" "true"
                              (Sample.banned "203.0.113.9")) None in
  fst (accessGate (Sample.from "/index.html" "203.0.113.9") busy)
    = Sent (mkResponse 200 (SendFile "public/maintenance.html"))
  /\ fst (accessGate (Sample.from "/logo.png" "203.0.113.9") busy)
     = json 403 (JsonError "Access denied")
  /\ fst (accessGate (Sample.from "/admin/login" "203.0.113.9") busy) = Next
  /\ fst (accessGate (Sample.from "/report" "198.51.100.7")
            (Sample.world (Sample.banned "203.0.113.9") None)) = Next.
Proof.
  cbv zeta. split; [| split; [| split]].
  - destruct (accessGate_order (Sample.from "/index.html" "203.0.113.9")
                (Sample.world (with_setting "maintenance_mode" "true"
                                 (Sample.banned "203.0.113.9")) None))
      as [_ [Hmaint _]].
    apply Hmaint. repeat split; vm_compute; reflexivity.
  - destruct (accessGate_order (Sample.from "/logo.png" "203.0.113.9")
                (Sample.world (with_setting "maintenance_mode" "true"
                                 (Sample.banned "203.0.113.9")) None))
      as [_ [_ [Hdeny _]]].
    apply Hdeny.
    + intros [_ [Hasset _]]. vm_compute in Hasset. discriminate Hasset.
    + eexists. split; [left; reflexivity | reflexivity].
    + reflexivity.
  - destruct (accessGate_order (Sample.from "/admin/login" "203.0.113.9")
                (Sample.world (with_setting "maintenance_mode" "true"
                                 (Sample.banned "203.0.113.9")) None))
      as [_ [_ [_ [_ [Hadmin _]]]]].
    apply Hadmin. reflexivity.
  - destruct (accessGate_order (Sample.from "/report" "198.51.100.7")
                (Sample.world (Sample.banned "203.0.113.9") None))
      as [_ [_ [_ [Hpass _]]]].
    apply Hpass.
    + intros [_ [_ Hon]]. vm_compute in Hon. discriminate Hon.
    + intros [[e [[<- | []] He]] _]. vm_compute in He. discriminate He.
Defined.

(** ** C5: the session gate *)

Lemma requireAuth_run (next : M Outcome) (w : World) :
  requireAuth next w = if authenticated (session w) then next w
                       else (auth_required, w).
Proof.
  unfold requireAuth. run.
  destruct (authenticated (session w)); [reflexivity |].
  now destruct w.
Qed.

Lemma app_run (env : Env) (now : Z) (fault : option string) (rt : Route)
    (req : Request) (w : World) :
  app env now fault rt req w =
  match fst (accessGate req w) with
  | Next => handler env now fault rt req (snd (accessGate req w))
  | answered => (answered, snd (accessGate req w))
  end.
Proof.
  unfold app. run.
  destruct (accessGate req w) as [[r | | e] w']; reflexivity.
Qed.

(** C5.  Without an authenticated admin session, each endpoint behind the
    session gate (dashboard read, set-status, maintenance toggle, blacklist
    add, blacklist remove) answers 401 "Authentication required" and the
    wrapped handler does not run: no statement is executed and the settings,
    blacklist and reports are as before.  This holds for any wrapped handler.
    Through the whole application the database is unchanged too, and on an
    admin path the answer is that 401. *)
Theorem requireAuth_rejects (env : Env) (now : Z) (fault : option string)
    (rt : Route) (req : Request) (w : World) :
  authenticated (session w) = false ->
  In rt [GetAdminDashboard; PostAdminSetStatus; PostAdminMaintenance;
         PostAdminBlacklist; DeleteAdminBlacklist] ->
  handler env now fault rt req w
    = (json 401 (JsonError "Authentication required"), w)
  /\ (forall next : M Outcome,
        requireAuth next w
          = (json 401 (JsonError "Authentication required"), w))
  /\ db (snd (app env now fault rt req w)) = db w
  /\ (isAdminPath (path req) = true ->
      fst (app env now fault rt req w)
        = json 401 (JsonError "Authentication required")).
Proof.
  intros Hno Hrt.
  assert (Hgate : forall next : M Outcome, forall w' : World,
             session w' = session w ->
             requireAuth next w'
               = (json 401 (JsonError "Authentication required"), w')).
  { intros next w' Hs. rewrite requireAuth_run, Hs, Hno. reflexivity. }
  assert (Hh : forall w' : World, session w' = session w ->
             handler env now fault rt req w'
               = (json 401 (JsonError "Authentication required"), w')).
  { intros w' Hs.
    cbn in Hrt. destruct Hrt as [<- | [<- | [<- | [<- | [<- | []]]]]];
      cbn [handler]; now apply Hgate. }
  split; [now apply Hh |]. split; [intros next; now apply Hgate |].
  destruct (accessGate_reads_only req w) as [Hdb Hsess].
  split.
  - rewrite app_run.
    destruct (fst (accessGate req w)); cbn [snd]; trivial.
    rewrite (Hh _ Hsess). exact Hdb.
  - intros Hadm. rewrite app_run, (accessGate_admin req w Hadm).
    now rewrite (Hh _ Hsess).
Qed.

(** A visitor asks for a forced status: 401, and [force_status] stays
    "auto". *)
Lemma requireAuth_rejects_witness :
  let w := Sample.world Sample.seeded Sample.visitor in
  let out := handler Sample.env 1700000000000 None PostAdminSetStatus
               (Sample.with_status (Some "down")) w in
  fst out = json 401 (JsonError "Authentication required")
  /\ settings (db (snd out)) !! "force_status" = Some "auto"
  /\ trace (snd out) = [].
Proof.
  cbv zeta.
  destruct (requireAuth_rejects Sample.env 1700000000000 None
              PostAdminSetStatus (Sample.with_status (Some "down"))
              (Sample.world Sample.seeded Sample.visitor) eq_refl)
    as [Hout _].
  { right. left. reflexivity. }
  rewrite Hout. repeat split.
Defined.

(** ** What each admin handler computes *)

Lemma adminSetStatus_run (req : Request) (w : World) :
  adminSetStatus req w =
  let status := body_status (body req) in
  if Js.array_includes ["up"; "down"; "auto"] status
  then (json 200 JsonSuccess,
        mkWorld (Sql.update_setting "force_status" (default "" status) (db w))
                (session w)
                (trace w ++ [UpdateForceStatus (default "" status)]))
  else (json 400 (JsonError "Invalid status. Must be up, down, or auto"), w).
Proof.
  unfold adminSetStatus. run.
  destruct (Js.array_includes _ _); cbn [negb]; [reflexivity | now destruct w].
Qed.

Lemma adminMaintenance_run (req : Request) (w : World) :
  adminMaintenance req w =
  let value := if default false (body_enabled (body req))
               then "true" else "false" in
  (json 200 JsonSuccess,
   mkWorld (Sql.update_setting "maintenance_mode" value (db w)) (session w)
           (trace w ++ [UpdateMaintenanceMode value])).
Proof. reflexivity. Qed.

Lemma adminBlacklistAdd_run (now : Z) (fault : option string) (req : Request)
    (w : World) :
  adminBlacklistAdd now fault req w =
  let ip := body_ip (body req) in
  let reason := Js.or_else (body_reason (body req)) "No reason provided" in
  let w1 := mkWorld (db w) (session w)
              (trace w ++ [InsertBlacklist (default "" ip) now reason]) in
  if Js.truthy_opt ip then
    match fault with
    | Some message =>
        (if Js.includes message "UNIQUE constraint failed"
         then json 400 (JsonError "IP already blacklisted")
         else json 500 (JsonError "Database error"), w1)
    | None =>
        match Sql.insert_blacklist (default "" ip) now reason (db w) with
        | inl _ => (json 400 (JsonError "IP already blacklisted"), w1)
        | inr d' => (json 200 JsonSuccess, mkWorld d' (session w) (trace w1))
        end
    end
  else (json 400 (JsonError "IP address required"), w).
Proof.
  unfold adminBlacklistAdd. run.
  destruct (Js.truthy_opt _); cbn [negb]; [| now destruct w].
  destruct fault as [message |].
  - destruct (Js.includes message _); reflexivity.
  - unfold Sql.insert_blacklist. cbn [db session trace].
    destruct (existsb _ (blacklisted_ips (db w))); reflexivity.
Qed.

Lemma adminBlacklistRemove_run (req : Request) (w : World) :
  adminBlacklistRemove req w =
  (json 200 JsonSuccess,
   mkWorld (Sql.delete_blacklist (params_ip req) (db w)) (session w)
           (trace w ++ [DeleteBlacklist (params_ip req)])).
Proof. reflexivity. Qed.

(** ** One request changes the database by at most one statement *)

Lemma requireAuth_db_change (next : M Outcome) (w : World) :
  db_change (db w) (db (snd (next w))) ->
  db_change (db w) (db (snd (requireAuth next w))).
Proof.
  intros H. rewrite requireAuth_run.
  destruct (authenticated (session w)); [exact H | constructor].
Qed.

Lemma handler_db_change (env : Env) (now : Z) (fault : option string)
    (rt : Route) (req : Request) (w : World) :
  db_change (db w) (db (snd (handler env now fault rt req w))).
Proof.
  destruct rt; cbn [handler]; try apply requireAuth_db_change.
  - constructor.
  - unfold adminLogin. run.
    destruct (negb _ || negb _); [constructor |].
    destruct (strict_eq _ _ && strict_eq _ _); [| constructor].
    destruct (session w); constructor.
  - unfold adminLogout. run. destruct (session w); constructor.
  - constructor.
  - constructor.
  - rewrite adminSetStatus_run. cbv zeta.
    destruct (Js.array_includes _ _); constructor.
  - rewrite adminMaintenance_run. constructor.
  - rewrite adminBlacklistAdd_run. cbv zeta.
    destruct (Js.truthy_opt _); [| constructor].
    destruct fault as [message |].
    + destruct (Js.includes message _); constructor.
    + destruct (Sql.insert_blacklist _ _ _ _) eqn:Hins; cbn [snd db].
      * constructor.
      * eapply change_blacklist. exact Hins.
  - rewrite adminBlacklistRemove_run. constructor.
  - rewrite report_run. cbv zeta.
    destruct (existsb _ (reports (db w))); constructor.
  - rewrite status_run. cbv zeta.
    destruct (is_forced _); constructor.
  - constructor.
Qed.

Lemma app_db_change (env : Env) (now : Z) (fault : option string)
    (rt : Route) (req : Request) (w : World) :
  db_change (db w) (db (snd (app env now fault rt req w))).
Proof.
  rewrite app_run.
  destruct (accessGate_reads_only req w) as [Hdb _].
  destruct (fst (accessGate req w)); cbn [snd];
    try (rewrite Hdb; constructor).
  rewrite <- Hdb at 1. apply handler_db_change.
Qed.

Lemma startup_db (d : DB) (s : option Session) :
  db_after startup d s = Sql.seed_settings d.
Proof. reflexivity. Qed.

(** ** The seeded settings stay in place *)

Lemma insert_or_ignore_keeps (k v k' : string) (s : gmap string string) :
  is_Some (s !! k') -> is_Some (Sql.insert_or_ignore k v s !! k').
Proof.
  intros Hk'. unfold Sql.insert_or_ignore.
  destruct (s !! k) eqn:Hk; [exact Hk' |].
  destruct (decide (k = k')) as [<- | Hne].
  - rewrite lookup_insert_eq. eauto.
  - now rewrite lookup_insert_ne.
Qed.

Lemma insert_or_ignore_adds (k v : string) (s : gmap string string) :
  is_Some (Sql.insert_or_ignore k v s !! k).
Proof.
  unfold Sql.insert_or_ignore.
  destruct (s !! k) eqn:Hk; [rewrite Hk; eauto |].
  rewrite lookup_insert_eq. eauto.
Qed.

Lemma seed_settings_seeds (d : DB) :
  is_Some (settings (Sql.seed_settings d) !! "force_status")
  /\ is_Some (settings (Sql.seed_settings d) !! "maintenance_mode").
Proof.
  cbn [Sql.seed_settings settings]. split.
  - apply insert_or_ignore_adds.
  - apply insert_or_ignore_keeps, insert_or_ignore_adds.
Qed.

Lemma seed_settings_keeps (d : DB) (k : string) :
  is_Some (settings d !! k) -> is_Some (settings (Sql.seed_settings d) !! k).
Proof.
  intros H. cbn [Sql.seed_settings settings].
  now do 2 apply insert_or_ignore_keeps.
Qed.

Lemma update_setting_lookup (k v : string) (d : DB) :
  settings (Sql.update_setting k v d) !! k
  = match settings d !! k with Some _ => Some v | None => None end.
Proof.
  cbn [Sql.update_setting settings].
  destruct (settings d !! k) eqn:Hk; [apply lookup_insert_eq | exact Hk].
Qed.

Lemma update_setting_other (k v k' : string) (d : DB) :
  k <> k' -> settings (Sql.update_setting k v d) !! k' = settings d !! k'.
Proof.
  intros Hne. cbn [Sql.update_setting settings].
  destruct (settings d !! k); [now rewrite lookup_insert_ne | reflexivity].
Qed.

Lemma db_change_keeps_setting (d d' : DB) (k : string) :
  db_change d d' ->
  is_Some (settings d !! k) -> is_Some (settings d' !! k).
Proof.
  intros Hch Hk. destruct Hch as [| ip ts | k0 v | ip ts reason d' Hins | ip];
    trivial.
  - destruct (decide (k0 = k)) as [<- | Hne].
    + rewrite update_setting_lookup. destruct Hk as [x ->]. eauto.
    + now rewrite update_setting_other.
  - unfold Sql.insert_blacklist in Hins.
    destruct (existsb _ _); [discriminate |].
    injection Hins as <-. exact Hk.
Qed.

Lemma reachable_seeded (d : DB) :
  reachable d ->
  is_Some (settings d !! "force_status")
  /\ is_Some (settings d !! "maintenance_mode").
Proof.
  induction 1 as [| d Hd [IHf IHm] | d env now fault rt req s Hd [IHf IHm]].
  - rewrite startup_db. apply seed_settings_seeds.
  - rewrite startup_db. apply seed_settings_seeds.
  - unfold db_after.
    pose proof (app_db_change env now fault rt req (mkWorld d s [])) as Hch.
    change (db_change d (db_after (app env now fault rt req) d s)) in Hch.
    fold (db_after (app env now fault rt req) d s).
    split; eapply db_change_keeps_setting; eauto.
Qed.

(** ** The blacklist never holds an address twice *)

Lemma NoDup_snoc {A} (l : list A) (a : A) :
  List.NoDup l -> ~ In a l -> List.NoDup (l ++ [a]).
Proof.
  induction l as [| x l IH]; intros Hnd Hnin; cbn.
  - constructor; [intros [] | constructor].
  - apply List.NoDup_cons_iff in Hnd as [Hx Hl].
    apply List.NoDup_cons_iff. split.
    + intros Hin. apply in_app_or in Hin as [Hin | [<- | []]].
      * now apply Hx.
      * apply Hnin. now left.
    + apply IH; [exact Hl |]. intros Hin. apply Hnin. now right.
Qed.

Lemma NoDup_map_filter {A B} (f : A -> B) (p : A -> bool) (l : list A) :
  List.NoDup (List.map f l) -> List.NoDup (List.map f (List.filter p l)).
Proof.
  induction l as [| x l IH]; cbn; intros Hnd; [constructor |].
  apply List.NoDup_cons_iff in Hnd as [Hx Hl].
  destruct (p x); cbn; [| now apply IH].
  apply List.NoDup_cons_iff. split; [| now apply IH].
  intros Hin. apply Hx.
  apply in_map_iff in Hin as [y [Hy Hin]].
  apply filter_In in Hin as [Hin _].
  apply in_map_iff. now exists y.
Qed.

Lemma not_blacklisted_existsb (a : string) (d : DB) :
  existsb (Sql.has_ip a) (blacklisted_ips d) = false
  <-> ~ In a (List.map bl_ip (blacklisted_ips d)).
Proof.
  rewrite <- not_true_iff_false, blacklisted_existsb. unfold blacklisted.
  rewrite in_map_iff. split; intros H [e He]; apply H; exists e; tauto.
Qed.

Lemma not_blacklisted_existsb_false (a : string) (d : DB) :
  ~ blacklisted a d -> existsb (Sql.has_ip a) (blacklisted_ips d) = false.
Proof.
  intros H. apply not_true_iff_false. now rewrite blacklisted_existsb.
Qed.

Lemma insert_blacklist_present (a : string) (ts : Z) (reason : string)
    (d : DB) :
  blacklisted a d ->
  Sql.insert_blacklist a ts reason d = inl Sql.unique_violation.
Proof.
  intros Hbl. apply blacklisted_existsb in Hbl.
  unfold Sql.insert_blacklist. now rewrite Hbl.
Qed.

Lemma db_change_unique (d d' : DB) :
  db_change d d' -> unique_addresses d -> unique_addresses d'.
Proof.
  unfold unique_addresses.
  intros Hch Hu. destruct Hch as [| ip ts | k v | ip ts reason d' Hins | ip];
    trivial.
  - unfold Sql.insert_blacklist in Hins.
    destruct (existsb _ _) eqn:Hex; [discriminate |].
    injection Hins as <-. cbn [blacklisted_ips].
    rewrite List.map_app. cbn [List.map bl_ip].
    apply NoDup_snoc; [exact Hu |]. now apply not_blacklisted_existsb.
  - cbn [Sql.delete_blacklist blacklisted_ips]. now apply NoDup_map_filter.
Qed.

(** ** C6: [POST /admin/set-status] *)

Lemma valid_status_iff (o : option string) :
  Js.array_includes ["up"; "down"; "auto"] o = true
  <-> In o [Some "up"; Some "down"; Some "auto"].
Proof.
  destruct o as [s |]; cbn [Js.array_includes existsb In].
  - rewrite !orb_true_iff, !String.eqb_eq.
    split; intros H; repeat destruct H as [H | H];
      try discriminate; try contradiction; subst; auto;
      injection H as <-; auto.
  - split; [discriminate |].
    intros H; repeat destruct H as [H | H]; try discriminate; contradiction.
Qed.

(** C6, as the code has it.  With an authenticated session: a status that is
    not one of "up", "down", "auto" (or is missing) gets 400 and nothing
    changes.  A valid status gets success and an [UPDATE] of the
    [force_status] row: if the row exists, as it does in every state reached
    after start-up, the setting afterwards equals the supplied value and all
    else is as before; if the row is absent, nothing is inserted and the
    database is unchanged. *)
Theorem set_status_updates (env : Env) (now : Z) (fault : option string)
    (req : Request) (w : World) :
  authenticated (session w) = true ->
  let supplied := body_status (body req) in
  let out := handler env now fault PostAdminSetStatus req w in
  (~ In supplied [Some "up"; Some "down"; Some "auto"] ->
     fst out = json 400 (JsonError "Invalid status. Must be up, down, or auto")
     /\ snd out = w)
  /\ (forall v, supplied = Some v -> In v ["up"; "down"; "auto"] ->
        fst out = json 200 JsonSuccess
        /\ reports (db (snd out)) = reports (db w)
        /\ blacklisted_ips (db (snd out)) = blacklisted_ips (db w)
        /\ (is_Some (settings (db w) !! "force_status") ->
              settings (db (snd out))
                = <["force_status" := v]> (settings (db w))
              /\ settings (db (snd out)) !! "force_status" = Some v)
        /\ (reachable (db w) ->
              settings (db (snd out)) !! "force_status" = Some v)
        /\ (settings (db w) !! "force_status" = None -> db (snd out) = db w)).
Proof.
  intros Hauth supplied out. subst out. cbn [handler].
  rewrite requireAuth_run, Hauth, adminSetStatus_run. cbv zeta.
  fold supplied. split.
  - intros Hbad.
    assert (Hf : Js.array_includes ["up"; "down"; "auto"] supplied = false).
    { apply not_true_iff_false. intros H. now apply valid_status_iff in H. }
    rewrite Hf. split; reflexivity.
  - intros v Hv Hin.
    assert (Ht : Js.array_includes ["up"; "down"; "auto"] supplied = true).
    { apply valid_status_iff. rewrite Hv. cbn in Hin |- *.
      intuition (subst; auto). }
    rewrite Ht, Hv. cbn [fst snd db default from_option]. unfold id.
    assert (Hrow : is_Some (settings (db w) !! "force_status") ->
              settings (Sql.update_setting "force_status" v (db w))
                = <["force_status" := v]> (settings (db w))
              /\ settings (Sql.update_setting "force_status" v (db w))
                   !! "force_status" = Some v).
    { intros [x Hx]. rewrite update_setting_lookup, Hx.
      cbn [Sql.update_setting settings]. rewrite Hx. split; reflexivity. }
    split; [reflexivity |]. split; [reflexivity |]. split; [reflexivity |].
    split; [exact Hrow |]. split.
    + intros Hreach. apply Hrow. now apply reachable_seeded.
    + intros Hnone. unfold Sql.update_setting. rewrite Hnone.
      now destruct (db w).
Qed.

(** After start-up the admin forces "down"; a bad value is refused. *)
Lemma set_status_updates_witness :
  let w := Sample.world Sample.seeded Sample.admin in
  let out := handler Sample.env 1700000000000 None PostAdminSetStatus
               (Sample.with_status (Some "down")) w in
  fst out = json 200 JsonSuccess
  /\ settings (db (snd out)) !! "force_status" = Some "down"
  /\ handler Sample.env 1700000000000 None PostAdminSetStatus
       (Sample.with_status (Some "sideways")) w
     = (json 400 (JsonError "Invalid status. Must be up, down, or auto"), w).
Proof.
  cbv zeta.
  destruct (set_status_updates Sample.env 1700000000000 None
              (Sample.with_status (Some "down"))
              (Sample.world Sample.seeded Sample.admin) eq_refl)
    as [_ Hgood].
  destruct (Hgood "down" eq_refl) as [Hok [_ [_ [_ [Hreach _]]]]].
  { right. left. reflexivity. }
  split; [exact Hok |]. split; [apply Hreach; apply reach_startup |].
  destruct (set_status_updates Sample.env 1700000000000 None
              (Sample.with_status (Some "sideways"))
              (Sample.world Sample.seeded Sample.admin) eq_refl)
    as [Hbad _].
  destruct Hbad as [Hcode Hsame].
  { intros [H | [H | [H | []]]]; discriminate H. }
  apply injective_projections; [exact Hcode | exact Hsame].
Defined.

(** The claim as written fails where the row is absent: on a database whose
    [settings] table is still empty, a valid request is answered with success
    and [force_status] is not created. *)
Lemma set_status_no_upsert :
  let w := Sample.world empty_db Sample.admin in
  let out := handler Sample.env 1700000000000 None PostAdminSetStatus
               (Sample.with_status (Some "up")) w in
  authenticated (session w) = true
  /\ fst out = json 200 JsonSuccess
  /\ settings (db (snd out)) !! "force_status" = None
  /\ settings (db (snd out)) !! "force_status" <> Some "up".
Proof.
  cbv zeta. split; [reflexivity |]. split; [reflexivity |].
  split; [reflexivity | discriminate].
Qed.

(** ** C7: [POST /admin/blacklist] *)

Lemma truthy_opt_false (o : option string) :
  Js.truthy_opt o = false <-> o = None \/ o = Some "".
Proof.
  destruct o as [[| c s] |]; cbn; split; auto; try discriminate;
    intros [H | H]; discriminate H.
Qed.

Lemma truthy_opt_true (o : option string) (a : string) :
  o = Some a -> a <> "" -> Js.truthy_opt o = true.
Proof. intros -> Ha. destruct a; [contradiction | reflexivity]. Qed.

(** C7, as the code has it.  With an authenticated session: a missing or
    empty address gets 400 and nothing is executed.  For a non-empty address:
    if it is already in the blacklist the answer is 400 "IP already
    blacklisted" and the database is unchanged; a storage failure whose
    message does not speak of a UNIQUE constraint gets the generic 500
    "Database error", again with the database unchanged; otherwise exactly one
    entry [{address, now, reason}] is appended, where a missing or empty
    reason is replaced by "No reason provided", and the answer is success. *)
Theorem blacklist_add_cases (env : Env) (now : Z) (fault : option string)
    (req : Request) (w : World) :
  authenticated (session w) = true ->
  let out := handler env now fault PostAdminBlacklist req w in
  let reason := match body_reason (body req) with
                | Some (String c r) => String c r
                | _ => "No reason provided"
                end in
  (body_ip (body req) = None \/ body_ip (body req) = Some "" ->
     fst out = json 400 (JsonError "IP address required") /\ snd out = w)
  /\ (forall a, body_ip (body req) = Some a -> a <> "" ->
        (fault = None -> blacklisted a (db w) ->
           fst out = json 400 (JsonError "IP already blacklisted")
           /\ db (snd out) = db w)
        /\ (forall message, fault = Some message ->
              Js.includes message "UNIQUE constraint failed" = false ->
              fst out = json 500 (JsonError "Database error")
              /\ db (snd out) = db w)
        /\ (forall message, fault = Some message ->
              Js.includes message "UNIQUE constraint failed" = true ->
              fst out = json 400 (JsonError "IP already blacklisted")
              /\ db (snd out) = db w)
        /\ (fault = None -> ~ blacklisted a (db w) ->
              fst out = json 200 JsonSuccess
              /\ blacklisted_ips (db (snd out))
                   = blacklisted_ips (db w)
                       ++ [mkBlacklistEntry (blacklisted_ips_seq (db w) + 1)
                                            a now reason]
              /\ reports (db (snd out)) = reports (db w)
              /\ settings (db (snd out)) = settings (db w))).
Proof.
  intros Hauth out reason. subst out. cbn [handler].
  rewrite requireAuth_run, Hauth, adminBlacklistAdd_run. cbv zeta.
  assert (Hreason : Js.or_else (body_reason (body req)) "No reason provided"
                    = reason).
  { subst reason. now destruct (body_reason (body req)) as [[| c r] |]. }
  rewrite Hreason. split.
  - intros Hmiss. apply truthy_opt_false in Hmiss. rewrite Hmiss.
    split; reflexivity.
  - intros a Ha Hne. rewrite (truthy_opt_true _ a Ha Hne), Ha.
    cbn [default from_option]. unfold id.
    split; [| split; [| split]].
    + intros -> Hbl.
      rewrite (insert_blacklist_present a now reason (db w) Hbl).
      split; reflexivity.
    + intros message -> Hother. rewrite Hother. split; reflexivity.
    + intros message -> Hunique. rewrite Hunique. split; reflexivity.
    + intros -> Hfree. unfold Sql.insert_blacklist.
      rewrite (not_blacklisted_existsb_false a (db w) Hfree).
      repeat split.
Qed.

(** A first entry without a reason, the same address again, and a locked
    database. *)
Lemma blacklist_add_cases_witness :
  let w := Sample.world Sample.seeded Sample.admin in
  let add := handler Sample.env 1700000000000 None PostAdminBlacklist
               (Sample.with_ip (Some "203.0.113.9") None) in
  fst (add w) = json 200 JsonSuccess
  /\ blacklisted_ips (db (snd (add w)))
     = [mkBlacklistEntry 1 "203.0.113.9" 1700000000000 "No reason provided"]
  /\ fst (add (snd (add w))) = json 400 (JsonError "IP already blacklisted")
  /\ fst (handler Sample.env 1700000000000
            (Some "SQLITE_BUSY: database is locked") PostAdminBlacklist
            (Sample.with_ip (Some "203.0.113.9") None) w)
     = json 500 (JsonError "Database error")
  /\ fst (handler Sample.env 1700000000000 None PostAdminBlacklist
            (Sample.with_ip None (Some "spam")) w)
     = json 400 (JsonError "IP address required").
Proof.
  cbv zeta.
  destruct (blacklist_add_cases Sample.env 1700000000000 None
              (Sample.with_ip (Some "203.0.113.9") None)
              (Sample.world Sample.seeded Sample.admin) eq_refl)
    as [_ Hadd].
  destruct (Hadd "203.0.113.9" eq_refl) as [_ [_ [_ Hnew]]]; [discriminate |].
  destruct (Hnew eq_refl) as [Hok [Hrows _]].
  { intros [e [[] _]]. }
  split; [exact Hok |]. split; [exact Hrows |]. split; [| split].
  - destruct (blacklist_add_cases Sample.env 1700000000000 None
                (Sample.with_ip (Some "203.0.113.9") None)
                (snd (handler Sample.env 1700000000000 None PostAdminBlacklist
                        (Sample.with_ip (Some "203.0.113.9") None)
                        (Sample.world Sample.seeded Sample.admin))) eq_refl)
      as [_ Hdup].
    destruct (Hdup "203.0.113.9" eq_refl) as [Hpresent _]; [discriminate |].
    apply Hpresent; [reflexivity |].
    eexists. split; [left; reflexivity | reflexivity].
  - destruct (blacklist_add_cases Sample.env 1700000000000
                (Some "SQLITE_BUSY: database is locked")
                (Sample.with_ip (Some "203.0.113.9") None)
                (Sample.world Sample.seeded Sample.admin) eq_refl)
      as [_ Hfault].
    destruct (Hfault "203.0.113.9" eq_refl) as [_ [Hbusy _]]; [discriminate |].
    apply (Hbusy "SQLITE_BUSY: database is locked" eq_refl). reflexivity.
  - destruct (blacklist_add_cases Sample.env 1700000000000 None
                (Sample.with_ip None (Some "spam"))
                (Sample.world Sample.seeded Sample.admin) eq_refl)
      as [Hmiss _].
    apply Hmiss. left. reflexivity.
Defined.

(** The claim as written fails on an empty address: it is supplied, it is
    not in the blacklist and storage works, yet the request is refused with
    400 and no entry is inserted.  An empty reason is likewise replaced by
    the default instead of being stored. *)
Lemma blacklist_add_empty_address :
  let w := Sample.world Sample.seeded Sample.admin in
  let out := handler Sample.env 1700000000000 None PostAdminBlacklist
               (Sample.with_ip (Some "") (Some "spam")) w in
  let out' := handler Sample.env 1700000000000 None PostAdminBlacklist
                (Sample.with_ip (Some "203.0.113.9") (Some "")) w in
  authenticated (session w) = true
  /\ body_ip (body (Sample.with_ip (Some "") (Some "spam"))) = Some ""
  /\ existsb (Sql.has_ip "") (blacklisted_ips (db w)) = false
  /\ fst out = json 400 (JsonError "IP address required")
  /\ blacklisted_ips (db (snd out)) = []
  /\ blacklisted_ips (db (snd out'))
     = [mkBlacklistEntry 1 "203.0.113.9" 1700000000000 "No reason provided"].
Proof. cbv zeta. repeat split. Qed.

(** ** C8: at most one blacklist entry per address *)

(** C8.  Every operation preserves the invariant that each address appears
    in at most one blacklist entry: it holds after start-up on a fresh file,
    every request (public or admin, whatever its route, body, session, clock
    value or storage fault) and every restart keeps it, so it holds in every
    reachable state; and the insertion fails when the address is already
    present. *)
Theorem blacklist_addresses_unique :
  unique_addresses (db_after startup empty_db None)
  /\ (forall d env now fault rt req s,
        unique_addresses d ->
        unique_addresses (db_after (app env now fault rt req) d s))
  /\ (forall d, unique_addresses d -> unique_addresses (db_after startup d None))
  /\ (forall d, reachable d -> unique_addresses d)
  /\ (forall d a ts reason,
        blacklisted a d ->
        Sql.insert_blacklist a ts reason d = inl Sql.unique_violation).
Proof.
  assert (Hinit : unique_addresses (db_after startup empty_db None)).
  { rewrite startup_db. constructor. }
  assert (Hstep : forall d env now fault rt req s,
             unique_addresses d ->
             unique_addresses (db_after (app env now fault rt req) d s)).
  { intros d env now fault rt req s Hu.
    apply (db_change_unique d); [| exact Hu].
    apply (app_db_change env now fault rt req (mkWorld d s [])). }
  assert (Hboot : forall d, unique_addresses d ->
             unique_addresses (db_after startup d None)).
  { intros d Hu. rewrite startup_db. exact Hu. }
  split; [exact Hinit |]. split; [exact Hstep |]. split; [exact Hboot |].
  split.
  - induction 1; auto.
  - intros d a ts reason. apply insert_blacklist_present.
Qed.

(** The same address blacklisted twice in a row after start-up: the state
    reached holds it once. *)
Lemma blacklist_addresses_unique_witness :
  let add := app Sample.env 1700000000000 None PostAdminBlacklist
               (Sample.with_ip (Some "203.0.113.9") None) in
  let d1 := db_after add Sample.seeded Sample.admin in
  let d2 := db_after add d1 Sample.admin in
  unique_addresses d2
  /\ List.map bl_ip (blacklisted_ips d2) = ["203.0.113.9"].
Proof.
  cbv zeta. split; [| reflexivity].
  destruct blacklist_addresses_unique as [_ [_ [_ [Hreach _]]]].
  apply Hreach. do 2 apply reach_request. apply reach_startup.
Defined.

(** ** C9: [DELETE /admin/blacklist/:ip] *)

Lemma delete_blacklist_In (a : string) (d : DB) (e : BlacklistEntry) :
  In e (blacklisted_ips (Sql.delete_blacklist a d))
  <-> In e (blacklisted_ips d) /\ bl_ip e <> a.
Proof.
  cbn [Sql.delete_blacklist blacklisted_ips]. rewrite filter_In.
  unfold Sql.has_ip. rewrite negb_true_iff, String.eqb_neq. reflexivity.
Qed.

Lemma filter_all {A} (p : A -> bool) (l : list A) :
  (forall x, In x l -> p x = true) -> List.filter p l = l.
Proof.
  induction l as [| x l IH]; cbn; intros Hall; [reflexivity |].
  rewrite (Hall x (or_introl eq_refl)). f_equal. apply IH.
  intros y Hy. apply Hall. now right.
Qed.

Lemma delete_blacklist_absent (a : string) (d : DB) :
  ~ blacklisted a d -> Sql.delete_blacklist a d = d.
Proof.
  intros Hfree. unfold Sql.delete_blacklist.
  rewrite filter_all; [now destruct d |].
  intros e He. unfold Sql.has_ip. apply negb_true_iff, String.eqb_neq.
  intros Heq. apply Hfree. now exists e.
Qed.

Lemma delete_blacklist_gone (a : string) (d : DB) :
  ~ blacklisted a (Sql.delete_blacklist a d).
Proof.
  intros [e [He Heq]]. apply delete_blacklist_In in He as [_ Hne].
  contradiction.
Qed.

(** C9.  With an authenticated session the removal always answers success,
    whether or not the address was in the blacklist; afterwards the address
    is absent and the other entries are as before; removing an address that
    is not there changes nothing, so a second removal answers success again
    and leaves the state of the first. *)
Theorem blacklist_remove_idempotent (env : Env) (now : Z)
    (fault : option string) (req : Request) (w : World) :
  authenticated (session w) = true ->
  let remove := handler env now fault DeleteAdminBlacklist req in
  let a := params_ip req in
  fst (remove w) = json 200 JsonSuccess
  /\ ~ blacklisted a (db (snd (remove w)))
  /\ (forall e, In e (blacklisted_ips (db (snd (remove w))))
                <-> In e (blacklisted_ips (db w)) /\ bl_ip e <> a)
  /\ reports (db (snd (remove w))) = reports (db w)
  /\ settings (db (snd (remove w))) = settings (db w)
  /\ (~ blacklisted a (db w) -> db (snd (remove w)) = db w)
  /\ fst (remove (snd (remove w))) = json 200 JsonSuccess
  /\ db (snd (remove (snd (remove w)))) = db (snd (remove w)).
Proof.
  intros Hauth remove a. subst remove a. cbn [handler].
  assert (Hrun : forall w', authenticated (session w') = true ->
             requireAuth (adminBlacklistRemove req) w'
             = (json 200 JsonSuccess,
                mkWorld (Sql.delete_blacklist (params_ip req) (db w'))
                        (session w')
                        (trace w' ++ [DeleteBlacklist (params_ip req)]))).
  { intros w' Hw'. rewrite requireAuth_run, Hw'.
    apply adminBlacklistRemove_run. }
  rewrite (Hrun w Hauth). cbn [fst snd db].
  rewrite Hrun by exact Hauth. cbn [fst snd db].
  split; [reflexivity |]. split; [apply delete_blacklist_gone |].
  split; [intros e; apply delete_blacklist_In |].
  split; [reflexivity |]. split; [reflexivity |].
  split; [apply delete_blacklist_absent |].
  split; [reflexivity |].
  apply delete_blacklist_absent, delete_blacklist_gone.
Qed.

(** Removing a listed address empties the sample blacklist; removing it
    again, or removing an address never listed, answers success too. *)
Lemma blacklist_remove_idempotent_witness :
  let w := Sample.world (Sample.banned "203.0.113.9") Sample.admin in
  let remove := handler Sample.env 1700000000000 None DeleteAdminBlacklist
                  (Sample.removing "203.0.113.9") in
  fst (remove w) = json 200 JsonSuccess
  /\ blacklisted_ips (db (snd (remove w))) = []
  /\ fst (remove (snd (remove w))) = json 200 JsonSuccess
  /\ db (snd (remove (snd (remove w)))) = db (snd (remove w)).
Proof.
  cbv zeta.
  destruct (blacklist_remove_idempotent Sample.env 1700000000000 None
              (Sample.removing "203.0.113.9")
              (Sample.world (Sample.banned "203.0.113.9") Sample.admin)
              eq_refl)
    as [Hok [_ [_ [_ [_ [_ [Hok2 Hsame]]]]]]].
  split; [exact Hok |]. split; [reflexivity |].
  split; [exact Hok2 | exact Hsame].
Defined.

(** ** C10: missing settings rows *)

(** C10.  When the [maintenance_mode] row is absent the access gate never
    sends the maintenance page: it goes on to the blacklist check exactly as
    it does when the row holds "false", and a request from an address that is
    not blacklisted passes.  When the [force_status] row is absent,
    [GET /status] answers as in "auto" mode, with the status computed from
    the reports of the last 24 hours. *)
Theorem missing_settings_defaults (now : Z) (req : Request) (w : World) :
  (settings (db w) !! "maintenance_mode" = None ->
     fst (accessGate req w)
       <> Sent (mkResponse 200 (SendFile "public/maintenance.html"))
     /\ fst (accessGate req w) = fst (checkBlacklist req w)
     /\ fst (accessGate req w)
        = fst (accessGate req
                 (mkWorld (with_setting "maintenance_mode" "false" (db w))
                          (session w) (trace w)))
     /\ (~ blacklisted (clientIP req) (db w) -> fst (accessGate req w) = Next))
  /\ (settings (db w) !! "force_status" = None ->
      let rows := qualifying now (db w) in
      let count := Z.of_nat (length rows) in
      fst (status now w)
        = json 200 (JsonStatus (if count >=? 30 then "Korone is probably down"
                                else "Korone is up") count rows false)
      /\ fst (status now w)
         = fst (status now
                  (mkWorld (with_setting "force_status" "auto" (db w))
                           (session w) (trace w)))).
Proof.
  split.
  - intros Hnone.
    assert (Hgate : fst (accessGate req w) = fst (checkBlacklist req w)).
    { rewrite accessGate_run, Hnone. cbn [is_true_setting].
      destruct (negb _ && negb _); [| reflexivity].
      now rewrite !checkBlacklist_run. }
    split; [| split; [exact Hgate | split]].
    + rewrite Hgate, checkBlacklist_run. cbn [fst].
      destruct (existsb _ _ && _); discriminate.
    + rewrite Hgate, accessGate_run.
      cbn [db with_setting settings]. rewrite lookup_insert_eq.
      cbn [is_true_setting String.eqb Ascii.eqb Bool.eqb].
      destruct (negb _ && negb _); now rewrite !checkBlacklist_run.
    + intros Hfree. rewrite Hgate, checkBlacklist_run. cbn [fst].
      now rewrite (not_blacklisted_existsb_false _ _ Hfree).
  - intros Hnone. cbv zeta. rewrite !status_run. cbv zeta.
    rewrite Hnone. cbn [db with_setting settings].
    rewrite lookup_insert_eq. split; reflexivity.
Qed.

(** On a database whose settings table is still empty: a page request
    passes the gate, and the status is computed from the ledger. *)
Lemma missing_settings_defaults_witness :
  let w := Sample.world empty_db None in
  fst (accessGate (Sample.from "/index.html" "198.51.100.7") w) = Next
  /\ fst (status 1700000000000 w)
     = json 200 (JsonStatus "Korone is up" 0 [] false).
Proof.
  cbv zeta.
  destruct (missing_settings_defaults 1700000000000
              (Sample.from "/index.html" "198.51.100.7")
              (Sample.world empty_db None)) as [Hgate Hstatus].
  split.
  - destruct (Hgate eq_refl) as [_ [_ [_ Hpass]]].
    apply Hpass. intros [e [[] _]].
  - destruct (Hstatus eq_refl) as [Hauto _]. exact Hauto.
Defined.

(** * Further properties of the handlers *)

(** ** Login and logout *)

Lemma adminLogin_run (env : Env) (req : Request) (w : World) :
  adminLogin env req w =
  let username := body_username (body req) in
  let password := body_password (body req) in
  if negb (Js.truthy_opt username) || negb (Js.truthy_opt password)
  then (json 400 (JsonError "Username and password required"), w)
  else if strict_eq username (ADMIN_USERNAME env)
          && strict_eq password (ADMIN_PASSWORD env)
       then match session w with
            | Some _ => (json 200 JsonSuccess,
                         mkWorld (db w) (Some (mkSession true)) (trace w))
            | None => (Thrown "TypeError", w)
            end
       else (json 401 (JsonError "Invalid credentials"), w).
Proof.
  unfold adminLogin. run.
  destruct (negb _ || negb _); [now destruct w |].
  destruct (strict_eq _ _ && strict_eq _ _); [| now destruct w].
  destruct w as [d [s |] t]; reflexivity.
Qed.

Lemma adminLogout_run (w : World) :
  adminLogout w =
  match session w with
  | Some _ => (json 200 JsonSuccess, mkWorld (db w) None (trace w))
  | None => (Thrown "TypeError", w)
  end.
Proof.
  unfold adminLogout. run. destruct w as [d [s |] t]; reflexivity.
Qed.

Lemma truthy_opt_Some (o : option string) :
  Js.truthy_opt o = true <-> exists a, o = Some a /\ a <> "".
Proof.
  destruct o as [[| c s] |]; cbn; split; try discriminate.
  - intros [a [[= <-] Ha]]. contradiction.
  - intros _. eexists. split; [reflexivity | discriminate].
  - reflexivity.
  - intros [a [[=] _]].
Qed.

Lemma strict_eq_Some (o : option string) (a : string) :
  strict_eq (Some a) o = true <-> o = Some a.
Proof.
  destruct o as [b |]; cbn.
  - rewrite String.eqb_eq. split; congruence.
  - split; discriminate.
Qed.

(** X1.  With a session in place, the login succeeds exactly when the body
    carries a non-empty username and a non-empty password that equal the two
    configured values; it then marks the session as admin.  Every other
    attempt is answered 400 (a field missing or empty) or 401 and leaves the
    session as it was.  The login never touches the database.  In
    particular, while either value is not configured, or is configured
    empty, no login can succeed. *)
Theorem login_credentials (env : Env) (req : Request) (w : World)
    (s : Session) :
  session w = Some s ->
  let out := adminLogin env req w in
  let matching :=
    exists u p, u <> "" /\ p <> ""
                /\ body_username (body req) = Some u
                /\ body_password (body req) = Some p
                /\ ADMIN_USERNAME env = Some u
                /\ ADMIN_PASSWORD env = Some p in
  (matching ->
     out = (json 200 JsonSuccess,
            mkWorld (db w) (Some (mkSession true)) (trace w)))
  /\ (~ matching ->
      snd out = w
      /\ (fst out = json 400 (JsonError "Username and password required")
          \/ fst out = json 401 (JsonError "Invalid credentials")))
  /\ (Js.truthy_opt (body_username (body req)) = false
      \/ Js.truthy_opt (body_password (body req)) = false ->
      fst out = json 400 (JsonError "Username and password required"))
  /\ (Js.truthy_opt (ADMIN_USERNAME env) = false
      \/ Js.truthy_opt (ADMIN_PASSWORD env) = false ->
      fst out <> json 200 JsonSuccess)
  /\ db (snd out) = db w /\ trace (snd out) = trace w.
Proof.
  intros Hs out matching. subst out. rewrite adminLogin_run. cbv zeta.
  rewrite Hs.
  assert (Hiff : matching <->
            Js.truthy_opt (body_username (body req)) = true
            /\ Js.truthy_opt (body_password (body req)) = true
            /\ strict_eq (body_username (body req)) (ADMIN_USERNAME env) = true
            /\ strict_eq (body_password (body req)) (ADMIN_PASSWORD env)
               = true).
  { subst matching. split.
    - intros [u [p [Hu [Hp [-> [-> [-> ->]]]]]]].
      cbn [strict_eq]. rewrite !String.eqb_refl.
      destruct u, p; try contradiction; repeat split.
    - intros [Hu [Hp [Heu Hep]]].
      apply truthy_opt_Some in Hu as [u [Hu Hune]].
      apply truthy_opt_Some in Hp as [p [Hp Hpne]].
      rewrite Hu in Heu. rewrite Hp in Hep.
      apply strict_eq_Some in Heu. apply strict_eq_Some in Hep.
      exists u, p. tauto. }
  destruct (Js.truthy_opt (body_username (body req))) eqn:Hu;
    destruct (Js.truthy_opt (body_password (body req))) eqn:Hp;
    destruct (strict_eq (body_username (body req)) (ADMIN_USERNAME env))
      eqn:Heu;
    destruct (strict_eq (body_password (body req)) (ADMIN_PASSWORD env))
      eqn:Hep;
    cbn [negb orb andb fst snd db trace];
    (split; [intros Hm; apply Hiff in Hm; try reflexivity;
             destruct Hm as [? [? [? ?]]]; discriminate |]);
    (split; [intros Hm; try (exfalso; apply Hm, Hiff; tauto); auto |]);
    (split; [intros [H | H]; try discriminate H; reflexivity |]);
    (split; [| split; reflexivity]);
    intros Hcfg; try discriminate.
  exfalso.
  apply truthy_opt_Some in Hu as [u [Hu Hune]].
  apply truthy_opt_Some in Hp as [p [Hp Hpne]].
  rewrite Hu in Heu. rewrite Hp in Hep.
  apply strict_eq_Some in Heu. apply strict_eq_Some in Hep.
  rewrite Heu, Hep in Hcfg.
  destruct u, p; try contradiction. cbn in Hcfg.
  destruct Hcfg as [H | H]; discriminate H.
Qed.

(** The configured pair opens the session; a wrong password does not, and
    neither does anything while nothing is configured. *)
Lemma login_credentials_witness :
  let w := Sample.world Sample.seeded Sample.visitor in
  adminLogin Sample.env (Visit.login_as (Some "root") (Some "secret")) w
    = (json 200 JsonSuccess, Sample.world Sample.seeded Sample.admin)
  /\ adminLogin Sample.env (Visit.login_as (Some "root") (Some "guess")) w
     = (json 401 (JsonError "Invalid credentials"), w)
  /\ fst (adminLogin (mkEnv None None)
            (Visit.login_as (Some "root") (Some "secret")) w)
     <> json 200 JsonSuccess.
Proof.
  cbv zeta. split; [| split].
  - destruct (login_credentials Sample.env
                (Visit.login_as (Some "root") (Some "secret"))
                (Sample.world Sample.seeded Sample.visitor)
                (mkSession false) eq_refl) as [Hok _].
    apply Hok. exists "root", "secret".
    repeat split; discriminate.
  - destruct (login_credentials Sample.env
                (Visit.login_as (Some "root") (Some "guess"))
                (Sample.world Sample.seeded Sample.visitor)
                (mkSession false) eq_refl) as [_ [Hbad _]].
    destruct Hbad as [Hw Hcode].
    { intros [u [p [_ [_ [_ [Hp [_ Hcfg]]]]]]].
      cbn in Hp, Hcfg. congruence. }
    apply injective_projections; [| exact Hw].
    destruct Hcode as [H | H]; [| exact H].
    vm_compute in H. discriminate H.
  - destruct (login_credentials (mkEnv None None)
                (Visit.login_as (Some "root") (Some "secret"))
                (Sample.world Sample.seeded Sample.visitor)
                (mkSession false) eq_refl) as [_ [_ [_ [Hcfg _]]]].
    apply Hcfg. left. reflexivity.
Defined.

(** X2.  After a successful login every handler behind the session gate
    runs; after a logout none does (the gate answers 401); a failed login
    neither opens nor closes a session.  Logging out answers success and
    leaves the database alone. *)
Theorem session_lifecycle (env : Env) (req : Request) (w : World)
    (s : Session) (next : M Outcome) :
  session w = Some s ->
  let w_in := snd (adminLogin env req w) in
  let w_out := snd (adminLogout w) in
  (fst (adminLogin env req w) = json 200 JsonSuccess ->
     requireAuth next w_in = next w_in)
  /\ (fst (adminLogin env req w) <> json 200 JsonSuccess -> w_in = w)
  /\ fst (adminLogout w) = json 200 JsonSuccess
  /\ db w_out = db w
  /\ requireAuth next w_out
     = (json 401 (JsonError "Authentication required"), w_out).
Proof.
  intros Hs. cbv zeta. rewrite adminLogin_run, adminLogout_run.
  cbv zeta. rewrite Hs.
  split; [| split; [| split; [reflexivity | split; [reflexivity |]]]].
  - destruct (negb _ || negb _); [discriminate |].
    destruct (strict_eq _ _ && strict_eq _ _); [| discriminate].
    intros _. cbn [snd]. now rewrite requireAuth_run.
  - destruct (negb _ || negb _); [reflexivity |].
    destruct (strict_eq _ _ && strict_eq _ _); [| reflexivity].
    intros H. now contradiction H.
  - cbn [snd]. now rewrite requireAuth_run.
Qed.

(** Logged in, the dashboard is served; logged out again, it is refused. *)
Lemma session_lifecycle_witness :
  let w := Sample.world Sample.seeded Sample.visitor in
  let w_in := snd (adminLogin Sample.env
                     (Visit.login_as (Some "root") (Some "secret")) w) in
  requireAuth (adminDashboard 1700000000000) w_in
    = adminDashboard 1700000000000 w_in
  /\ fst (requireAuth (adminDashboard 1700000000000) (snd (adminLogout w_in)))
     = json 401 (JsonError "Authentication required").
Proof.
  cbv zeta. split.
  - destruct (session_lifecycle Sample.env
                (Visit.login_as (Some "root") (Some "secret"))
                (Sample.world Sample.seeded Sample.visitor)
                (mkSession false) (adminDashboard 1700000000000) eq_refl)
      as [Hin _].
    apply Hin. reflexivity.
  - destruct (session_lifecycle Sample.env
                (Visit.login_as None None)
                (snd (adminLogin Sample.env
                        (Visit.login_as (Some "root") (Some "secret"))
                        (Sample.world Sample.seeded Sample.visitor)))
                (mkSession true) (adminDashboard 1700000000000) eq_refl)
      as [_ [_ [_ [_ Hout]]]].
    now rewrite Hout.
Defined.

(** ** What one request can do to the database *)

Lemma or_else_nonempty (o : option string) (b : string) :
  b <> "" -> Js.or_else o b <> "".
Proof.
  intros Hb. destruct o as [[| c s] |]; cbn; trivial. discriminate.
Qed.

Lemma valid_status_default (o : option string) :
  Js.array_includes ["up"; "down"; "auto"] o = true ->
  In (default "" o) ["up"; "down"; "auto"].
Proof.
  intros H. apply valid_status_iff in H.
  destruct H as [<- | [<- | [<- | []]]]; cbn; auto.
Qed.

Lemma handler_db_step (env : Env) (now : Z) (fault : option string)
    (rt : Route) (req : Request) (w : World) :
  db_step (authenticated (session w)) rt (db w)
          (db (snd (handler env now fault rt req w))).
Proof.
  destruct rt; cbn [handler]; rewrite ?requireAuth_run;
    try (destruct (authenticated (session w)) eqn:Hauth;
         [| apply step_none]).
  - apply step_none.
  - rewrite adminLogin_run. cbv zeta.
    destruct (negb _ || negb _); [apply step_none |].
    destruct (strict_eq _ _ && strict_eq _ _); [| apply step_none].
    destruct (session w); apply step_none.
  - rewrite adminLogout_run. destruct (session w); apply step_none.
  - apply step_none.
  - apply step_none.
  - rewrite adminSetStatus_run. cbv zeta.
    destruct (Js.array_includes _ _) eqn:Hv; [| apply step_none].
    apply step_force_status; trivial. now apply valid_status_default.
  - rewrite adminMaintenance_run. cbv zeta. cbn [snd db].
    apply step_maintenance; trivial.
    destruct (default false _); cbn; auto.
  - rewrite adminBlacklistAdd_run. cbv zeta.
    destruct (Js.truthy_opt _) eqn:Hip; [| apply step_none].
    destruct fault as [message |].
    + destruct (Js.includes message _); apply step_none.
    + destruct (Sql.insert_blacklist _ _ _ _) eqn:Hins; cbn [snd db].
      * apply step_none.
      * eapply step_blacklist; [reflexivity | reflexivity | | | exact Hins].
        -- apply truthy_opt_Some in Hip as [a [-> Ha]]. exact Ha.
        -- apply or_else_nonempty. discriminate.
  - rewrite adminBlacklistRemove_run. now apply step_unblacklist.
  - rewrite report_run. cbv zeta.
    destruct (existsb _ (reports (db w))) eqn:Hex; [apply step_none |].
    now apply step_report.
  - rewrite status_run. cbv zeta. destruct (is_forced _); apply step_none.
  - apply step_none.
Qed.

Lemma app_db_step (env : Env) (now : Z) (fault : option string)
    (rt : Route) (req : Request) (w : World) :
  db_step (authenticated (session w)) rt (db w)
          (db (snd (app env now fault rt req w))).
Proof.
  rewrite app_run.
  destruct (accessGate_reads_only req w) as [Hdb Hsess].
  destruct (fst (accessGate req w)); cbn [snd];
    try (rewrite Hdb; apply step_none).
  rewrite <- Hdb at 1. rewrite <- Hsess. apply handler_db_step.
Qed.

Lemma insert_blacklist_inr (a : string) (ts : Z) (reason : string)
    (d d' : DB) :
  Sql.insert_blacklist a ts reason d = inr d' ->
  ~ blacklisted a d
  /\ d' = mkDB (reports d) (reports_seq d)
               (blacklisted_ips d
                  ++ [mkBlacklistEntry (blacklisted_ips_seq d + 1) a ts reason])
               (blacklisted_ips_seq d + 1) (settings d).
Proof.
  unfold Sql.insert_blacklist.
  destruct (existsb _ _) eqn:Hex; [discriminate |].
  intros [= <-]. split; [| reflexivity].
  intros Hbl. apply blacklisted_existsb in Hbl. congruence.
Qed.

(** X3.  A request whose session is not authenticated changes neither the
    settings nor the blacklist, whatever its route, body, path, clock value
    or storage fault; and only the report route ever adds to the reports, a
    single row at a time, while no request removes or alters a report. *)
Theorem writes_need_admin (env : Env) (now : Z) (fault : option string)
    (rt : Route) (req : Request) (w : World) :
  let d' := db (snd (app env now fault rt req w)) in
  (authenticated (session w) = false ->
     settings d' = settings (db w)
     /\ blacklisted_ips d' = blacklisted_ips (db w)
     /\ blacklisted_ips_seq d' = blacklisted_ips_seq (db w))
  /\ (rt <> PostReport ->
      reports d' = reports (db w) /\ reports_seq d' = reports_seq (db w))
  /\ (reports d' = reports (db w)
      \/ exists row, reports d' = reports (db w) ++ [row]).
Proof.
  cbv zeta. pose proof (app_db_step env now fault rt req w) as Hstep.
  destruct Hstep as [| ip t Hrt Hex | v Ha Hrt Hv | v Ha Hrt Hv
                     | ip t reason d' Ha Hrt Hip Hre Hins | ip Ha Hrt].
  - repeat split; auto.
  - subst rt. repeat split; try congruence. right. eexists. reflexivity.
  - rewrite Ha. repeat split; auto; discriminate.
  - rewrite Ha. repeat split; auto; discriminate.
  - rewrite Ha. apply insert_blacklist_inr in Hins as [_ ->].
    repeat split; auto; discriminate.
  - rewrite Ha. repeat split; auto; discriminate.
Qed.

(** A visitor posts to the blacklist route and to the report route: only the
    report is recorded. *)
Lemma writes_need_admin_witness :
  let w := Sample.world Sample.seeded Sample.visitor in
  let d1 := db (snd (app Sample.env 1700000000000 None PostAdminBlacklist
                       (Sample.with_ip (Some "203.0.113.9") None) w)) in
  let d2 := db (snd (app Sample.env 1700000000000 None PostReport
                       (Sample.from "/report" "198.51.100.7") w)) in
  blacklisted_ips d1 = [] /\ reports d1 = []
  /\ settings d2 = settings Sample.seeded
  /\ reports d2 = [mkReport 1 "198.51.100.7" 1700000000000].
Proof.
  cbv zeta.
  destruct (writes_need_admin Sample.env 1700000000000 None PostAdminBlacklist
              (Sample.with_ip (Some "203.0.113.9") None)
              (Sample.world Sample.seeded Sample.visitor))
    as [Hvis [Hrep _]].
  destruct (Hvis eq_refl) as [_ [Hbl _]].
  destruct Hrep as [Hrows _]; [discriminate |].
  destruct (writes_need_admin Sample.env 1700000000000 None PostReport
              (Sample.from "/report" "198.51.100.7")
              (Sample.world Sample.seeded Sample.visitor))
    as [Hvis2 _].
  destruct (Hvis2 eq_refl) as [Hset _].
  split; [exact Hbl |]. split; [exact Hrows |]. split; [exact Hset |].
  reflexivity.
Defined.

(** ** Invariants of the reachable states *)

Lemma reachable_invariant (P : DB -> Prop) :
  P (Sql.seed_settings empty_db) ->
  (forall d, P d -> P (Sql.seed_settings d)) ->
  (forall auth rt d d', db_step auth rt d d' -> P d -> P d') ->
  forall d, reachable d -> P d.
Proof.
  intros Hinit Hseed Hstep d Hd.
  induction Hd as [| d Hd IH | d env now fault rt req s Hd IH].
  - exact Hinit.
  - rewrite startup_db. now apply Hseed.
  - eapply Hstep; [| exact IH].
    apply (app_db_step env now fault rt req (mkWorld d s [])).
Qed.

Lemma insert_or_ignore_lookup (k v k' : string) (s : gmap string string) :
  Sql.insert_or_ignore k v s !! k'
  = match s !! k' with
    | Some x => Some x
    | None => if decide (k = k') then Some v else None
    end.
Proof.
  unfold Sql.insert_or_ignore.
  destruct (s !! k) eqn:Hk.
  - destruct (s !! k') eqn:Hk'; [reflexivity |].
    destruct (decide (k = k')); [congruence | reflexivity].
  - rewrite lookup_insert. destruct (decide (k = k')) as [<- | Hne].
    + now rewrite Hk.
    + now destruct (s !! k').
Qed.

Lemma seed_settings_lookup (d : DB) (k : string) :
  settings (Sql.seed_settings d) !! k
  = match settings d !! k with
    | Some v => Some v
    | None => if decide ("force_status" = k) then Some "auto"
              else if decide ("maintenance_mode" = k) then Some "false"
                   else None
    end.
Proof.
  cbn [Sql.seed_settings settings]. rewrite !insert_or_ignore_lookup.
  destruct (settings d !! k); [reflexivity |].
  destruct (decide ("maintenance_mode" = k)) as [Hm | Hm];
    destruct (decide ("force_status" = k)) as [Hf | Hf]; try reflexivity.
  subst k. discriminate Hf.
Qed.

Lemma update_setting_well_formed (k v : string) (d : DB) :
  (k = "force_status" /\ In v ["up"; "down"; "auto"]
   \/ k = "maintenance_mode" /\ In v ["true"; "false"]) ->
  settings_well_formed d -> settings_well_formed (Sql.update_setting k v d).
Proof.
  intros Hkv [[f [Hf Hfin]] [[m [Hm Hmin]] Honly]].
  unfold settings_well_formed.
  destruct Hkv as [[-> Hv] | [-> Hv]].
  - rewrite update_setting_lookup, Hf.
    rewrite update_setting_other by discriminate.
    split; [exists v; split; [reflexivity | exact Hv] |].
    split; [exists m; split; [exact Hm | exact Hmin] |].
    intros k Hk. destruct (decide ("force_status" = k)) as [<- | Hne]; auto.
    rewrite update_setting_other in Hk by exact Hne. auto.
  - rewrite update_setting_lookup, Hm.
    rewrite update_setting_other by discriminate.
    split; [exists f; split; [exact Hf | exact Hfin] |].
    split; [exists v; split; [reflexivity | exact Hv] |].
    intros k Hk. destruct (decide ("maintenance_mode" = k)) as [<- | Hne]; auto.
    rewrite update_setting_other in Hk by exact Hne. auto.
Qed.

(** X4.  In every state the service can reach, the settings table holds
    exactly the two rows [force_status] and [maintenance_mode], the first
    with one of "up", "down", "auto" and the second with "true" or "false";
    on a fresh start they are "auto" and "false". *)
Theorem settings_stay_well_formed (d : DB) :
  reachable d ->
  settings_well_formed d
  /\ settings (db_after startup empty_db None) !! "force_status" = Some "auto"
  /\ settings (db_after startup empty_db None) !! "maintenance_mode"
     = Some "false".
Proof.
  intros Hd. split; [| split; reflexivity].
  revert d Hd. apply reachable_invariant.
  - split; [| split].
    + exists "auto". split; [reflexivity | cbn; auto].
    + exists "false". split; [reflexivity | cbn; auto].
    + intros k Hk. rewrite seed_settings_lookup in Hk.
      cbn [empty_db settings] in Hk. rewrite lookup_empty in Hk.
      destruct (decide ("force_status" = k)); auto.
      destruct (decide ("maintenance_mode" = k)); auto.
      now destruct Hk.
  - intros d [[f [Hf Hfin]] [[m [Hm Hmin]] Honly]].
    split; [| split].
    + exists f. now rewrite seed_settings_lookup, Hf.
    + exists m. now rewrite seed_settings_lookup, Hm.
    + intros k Hk. rewrite seed_settings_lookup in Hk.
      destruct (settings d !! k) eqn:Hdk; [apply Honly; rewrite Hdk; eauto |].
      destruct (decide ("force_status" = k)); auto.
      destruct (decide ("maintenance_mode" = k)); auto.
      now destruct Hk.
  - intros auth rt d d' Hstep Hwf.
    destruct Hstep as [| ip t Hrt Hex | v Ha Hrt Hv | v Ha Hrt Hv
                       | ip t reason d' Ha Hrt Hip Hre Hins | ip Ha Hrt];
      trivial.
    + apply update_setting_well_formed; auto.
    + apply update_setting_well_formed; auto.
    + apply insert_blacklist_inr in Hins as [_ ->]. exact Hwf.
Qed.

(** After the admin turns maintenance on and forces "down", the two rows
    hold just that. *)
Lemma settings_stay_well_formed_witness :
  let d1 := db_after (app Sample.env 1700000000000 None PostAdminMaintenance
                        (Visit.toggling (Some true)))
                     Sample.seeded Sample.admin in
  let d2 := db_after (app Sample.env 1700000000000 None PostAdminSetStatus
                        (Sample.with_status (Some "down"))) d1 Sample.admin in
  settings_well_formed d2
  /\ settings d2 !! "maintenance_mode" = Some "true"
  /\ settings d2 !! "force_status" = Some "down".
Proof.
  cbv zeta. split; [| split; reflexivity].
  refine (proj1 (settings_stay_well_formed _ _)).
  do 2 apply reach_request. apply reach_startup.
Defined.

(** *** Reports of one address are a day apart *)





(** *** Row ids *)

Lemma ids_below_weaken (b b' : Z) (ids : list Z) :
  b <= b' -> ids_below b ids -> ids_below b' ids.
Proof.
  intros Hb. induction ids as [| i ids IH]; cbn [ids_below]; [trivial |].
  intros [Hi [Hlt Hrest]]. split; [lia |]. split; [exact Hlt | now apply IH].
Qed.






(** ** Start-up *)

(** X7.  Start-up can be run on any database and run again: the second run
    changes nothing.  It leaves reports, blacklist and counters alone, keeps
    every settings row that is already there with its value (a forced status
    or a maintenance flag survives a restart), and makes sure the two rows
    exist. *)
Theorem startup_idempotent (d : DB) (s s' : option Session) :
  let d1 := db_after startup d s in
  db_after startup d1 s' = d1
  /\ reports d1 = reports d /\ reports_seq d1 = reports_seq d
  /\ blacklisted_ips d1 = blacklisted_ips d
  /\ blacklisted_ips_seq d1 = blacklisted_ips_seq d
  /\ (forall k v, settings d !! k = Some v -> settings d1 !! k = Some v)
  /\ is_Some (settings d1 !! "force_status")
  /\ is_Some (settings d1 !! "maintenance_mode").
Proof.
  cbv zeta. rewrite !startup_db.
  split; [| split; [reflexivity | split; [reflexivity | split;
            [reflexivity | split; [reflexivity | split]]]]].
  - assert (Hs : settings (Sql.seed_settings (Sql.seed_settings d))
                 = settings (Sql.seed_settings d)).
    { apply map_eq. intros k. rewrite (seed_settings_lookup (Sql.seed_settings d)).
      destruct (settings (Sql.seed_settings d) !! k) eqn:Hk; [reflexivity |].
      rewrite seed_settings_lookup in Hk.
      destruct (settings d !! k); [discriminate |].
      destruct (decide ("force_status" = k)); [discriminate |].
      destruct (decide ("maintenance_mode" = k)); [discriminate | reflexivity]. }
    unfold Sql.seed_settings at 1. cbn [settings] in Hs.
    cbn [reports reports_seq blacklisted_ips blacklisted_ips_seq
         Sql.seed_settings settings].
    unfold Sql.seed_settings. f_equal. exact Hs.
  - intros k v Hk. now rewrite seed_settings_lookup, Hk.
  - apply seed_settings_seeds.
Qed.

(** A restart after the admin forced "down" keeps "down". *)
Lemma startup_idempotent_witness :
  let d1 := db_after (app Sample.env 1700000000000 None PostAdminSetStatus
                        (Sample.with_status (Some "down")))
                     Sample.seeded Sample.admin in
  settings (db_after startup d1 None) !! "force_status" = Some "down"
  /\ db_after startup (db_after startup d1 None) None
     = db_after startup d1 None.
Proof.
  cbv zeta.
  destruct (startup_idempotent
              (db_after (app Sample.env 1700000000000 None PostAdminSetStatus
                           (Sample.with_status (Some "down")))
                        Sample.seeded Sample.admin) None None)
    as [Hidem [_ [_ [_ [_ [Hkeep _]]]]]].
  split; [| exact Hidem].
  apply Hkeep. reflexivity.
Defined.

(** ** The gate in front of the handlers *)

Lemma gate_blacklisted (req : Request) (w : World) :
  blacklisted (clientIP req) (db w) ->
  isAdminPath (path req) = false ->
  (fst (accessGate req w) = access_denied
   \/ fst (accessGate req w) = maintenance_page)
  /\ (settings (db w) !! "maintenance_mode" <> Some "true" ->
      fst (accessGate req w) = access_denied).
Proof.
  intros Hbl Hadm. apply blacklisted_existsb in Hbl.
  rewrite accessGate_run, Hadm. cbn [negb andb].
  destruct (isStaticAsset (path req)); cbn [negb].
  - rewrite checkBlacklist_run, Hbl, Hadm. cbn. auto.
  - destruct (is_true_setting _) eqn:Hm.
    + split; [now right |]. intros Hoff.
      apply is_true_setting_iff in Hm. contradiction.
    + rewrite checkBlacklist_run. cbn [db]. rewrite Hbl, Hadm. cbn. auto.
Qed.

Lemma gate_not_blacklisted (req : Request) (w : World) :
  ~ blacklisted (clientIP req) (db w) ->
  fst (accessGate req w) <> access_denied.
Proof.
  intros Hfree. apply not_blacklisted_existsb_false in Hfree.
  rewrite accessGate_run.
  destruct (negb _ && negb _); [destruct (is_true_setting _) |];
    rewrite ?checkBlacklist_run; cbn [db fst]; rewrite ?Hfree; discriminate.
Qed.

Lemma gate_maintenance (req : Request) (w : World) :
  isAdminPath (path req) = false -> isStaticAsset (path req) = false ->
  (fst (accessGate req w) = maintenance_page
   <-> settings (db w) !! "maintenance_mode" = Some "true").
Proof.
  intros Hadm Hst. rewrite accessGate_run, Hadm, Hst. cbn [negb andb].
  rewrite <- is_true_setting_iff.
  destruct (is_true_setting _); [tauto |].
  rewrite checkBlacklist_run. cbn [fst].
  split; [| discriminate].
  destruct (existsb _ _ && _); discriminate.
Qed.

(** X8.  With an authenticated session and the [maintenance_mode] row in
    place, the toggle answers success and sets the row to "true" for a true
    flag and to "false" for a false or missing one, leaving the forced
    status, the reports and the blacklist alone.  From then on a request for
    a path that is neither an admin path nor a static asset gets the
    maintenance page exactly when the flag was true, and admin paths keep
    passing the gate, so that the admin can switch it off again. *)
Theorem maintenance_toggle (env : Env) (now : Z) (fault : option string)
    (req : Request) (w : World) :
  authenticated (session w) = true ->
  is_Some (settings (db w) !! "maintenance_mode") ->
  let out := handler env now fault PostAdminMaintenance req w in
  let on := default false (body_enabled (body req)) in
  fst out = json 200 JsonSuccess
  /\ settings (db (snd out)) !! "maintenance_mode"
     = Some (if on then "true" else "false")
  /\ settings (db (snd out)) !! "force_status"
     = settings (db w) !! "force_status"
  /\ reports (db (snd out)) = reports (db w)
  /\ blacklisted_ips (db (snd out)) = blacklisted_ips (db w)
  /\ (forall req', isAdminPath (path req') = false ->
                   isStaticAsset (path req') = false ->
                   (fst (accessGate req' (snd out))
                      = Sent (mkResponse 200 (SendFile "public/maintenance.html"))
                    <-> on = true))
  /\ (forall req', isAdminPath (path req') = true ->
                   fst (accessGate req' (snd out)) = Next).
Proof.
  intros Hauth [m Hm]. cbv zeta. cbn [handler].
  rewrite requireAuth_run, Hauth, adminMaintenance_run. cbv zeta.
  cbn [fst snd db].
  assert (Hrow : settings (Sql.update_setting "maintenance_mode"
                             (if default false (body_enabled (body req))
                              then "true" else "false") (db w))
                   !! "maintenance_mode"
                 = Some (if default false (body_enabled (body req))
                         then "true" else "false")).
  { now rewrite update_setting_lookup, Hm. }
  split; [reflexivity |]. split; [exact Hrow |].
  split; [now apply update_setting_other |].
  split; [reflexivity |]. split; [reflexivity |]. split.
  - intros req' Hadm Hst.
    rewrite (gate_maintenance req' _ Hadm Hst). cbn [db]. rewrite Hrow.
    destruct (default false _); split; congruence.
  - intros req' Hadm. now apply accessGate_admin.
Qed.

(** Maintenance on: the front page is replaced, the admin login is not;
    maintenance off again: the front page is back. *)
Lemma maintenance_toggle_witness :
  let w := Sample.world Sample.seeded Sample.admin in
  let w_on := snd (handler Sample.env 1700000000000 None PostAdminMaintenance
                     (Visit.toggling (Some true)) w) in
  let w_off := snd (handler Sample.env 1700000000000 None PostAdminMaintenance
                      (Visit.toggling None) w_on) in
  fst (accessGate (Sample.from "/index.html" "198.51.100.7") w_on)
    = Sent (mkResponse 200 (SendFile "public/maintenance.html"))
  /\ fst (accessGate (Sample.from "/admin/login" "198.51.100.7") w_on) = Next
  /\ settings (db w_off) !! "maintenance_mode" = Some "false".
Proof.
  cbv zeta.
  destruct (maintenance_toggle Sample.env 1700000000000 None
              (Visit.toggling (Some true))
              (Sample.world Sample.seeded Sample.admin) eq_refl)
    as [_ [_ [_ [_ [_ [Hpage Hadmin]]]]]].
  { eexists. reflexivity. }
  split; [| split].
  - apply (Hpage (Sample.from "/index.html" "198.51.100.7"));
      reflexivity.
  - apply (Hadmin (Sample.from "/admin/login" "198.51.100.7")). reflexivity.
  - destruct (maintenance_toggle Sample.env 1700000000000 None
                (Visit.toggling None)
                (snd (handler Sample.env 1700000000000 None
                        PostAdminMaintenance (Visit.toggling (Some true))
                        (Sample.world Sample.seeded Sample.admin))) eq_refl)
      as [_ [Hoff _]].
    { eexists. reflexivity. }
    exact Hoff.
Defined.

Lemma blacklist_add_ensures (env : Env) (now : Z) (req : Request)
    (w : World) (a : string) :
  authenticated (session w) = true ->
  body_ip (body req) = Some a -> a <> "" ->
  let w1 := snd (handler env now None PostAdminBlacklist req w) in
  session w1 = session w
  /\ settings (db w1) = settings (db w)
  /\ blacklisted a (db w1).
Proof.
  intros Hauth Hip Ha. cbv zeta. cbn [handler].
  rewrite requireAuth_run, Hauth, adminBlacklistAdd_run. cbv zeta.
  rewrite (truthy_opt_true _ a Hip Ha), Hip.
  cbn [default from_option]. unfold id.
  destruct (Sql.insert_blacklist a now _ (db w)) as [msg | d'] eqn:Hins;
    cbn [snd session db].
  - split; [reflexivity |]. split; [reflexivity |].
    unfold Sql.insert_blacklist in Hins.
    destruct (existsb _ _) eqn:Hex; [| discriminate].
    now apply blacklisted_existsb.
  - apply insert_blacklist_inr in Hins as [_ ->]. cbn [settings].
    split; [reflexivity |]. split; [reflexivity |].
    eexists. split; [apply in_or_app; right; left; reflexivity |].
    reflexivity.
Qed.

(** X9.  Once the admin has blacklisted a non-empty address (storage
    working), the address is in the blacklist, whether it was added now or
    was there before.  Every later request from it on a non-admin path is
    stopped at the gate, with 403 unless maintenance is on; its requests to
    admin paths pass.  After the admin removes the address, its requests are
    no longer answered 403. *)
Theorem blacklist_blocks (env : Env) (now : Z) (req rm : Request)
    (w : World) (a : string) :
  authenticated (session w) = true ->
  body_ip (body req) = Some a -> a <> "" -> params_ip rm = a ->
  let w1 := snd (handler env now None PostAdminBlacklist req w) in
  let w2 := snd (handler env now None DeleteAdminBlacklist rm w1) in
  blacklisted a (db w1)
  /\ (forall req', clientIP req' = a -> isAdminPath (path req') = false ->
        (fst (accessGate req' w1) = json 403 (JsonError "Access denied")
         \/ fst (accessGate req' w1)
            = Sent (mkResponse 200 (SendFile "public/maintenance.html")))
        /\ (settings (db w) !! "maintenance_mode" <> Some "true" ->
            fst (accessGate req' w1) = json 403 (JsonError "Access denied")))
  /\ (forall req', isAdminPath (path req') = true ->
        fst (accessGate req' w1) = Next)
  /\ (forall req', clientIP req' = a ->
        fst (accessGate req' w2) <> json 403 (JsonError "Access denied")).
Proof.
  intros Hauth Hip Ha Hrm w1 w2.
  destruct (blacklist_add_ensures env now req w a Hauth Hip Ha)
    as [Hs1 [Hset1 Hbl1]].
  fold w1 in Hs1, Hset1, Hbl1.
  split; [exact Hbl1 |]. split; [| split].
  - intros req' Hc Hadm. rewrite <- Hc in Hbl1.
    destruct (gate_blacklisted req' w1 Hbl1 Hadm) as [Hor Hoff].
    split; [exact Hor |]. intros Hm. apply Hoff. now rewrite Hset1.
  - intros req' Hadm. now apply accessGate_admin.
  - intros req' Hc. subst w2. cbn [handler].
    rewrite requireAuth_run, Hs1, Hauth.
    rewrite adminBlacklistRemove_run. cbn [snd].
    apply gate_not_blacklisted. cbn [db]. rewrite Hc, Hrm.
    apply delete_blacklist_gone.
Qed.

(** An address is blacklisted, tries to report, and is let in again after
    its removal. *)
Lemma blacklist_blocks_witness :
  let w := Sample.world Sample.seeded Sample.admin in
  let w1 := snd (handler Sample.env 1700000000000 None PostAdminBlacklist
                   (Sample.with_ip (Some "203.0.113.9") None) w) in
  let w2 := snd (handler Sample.env 1700000000000 None DeleteAdminBlacklist
                   (Sample.removing "203.0.113.9") w1) in
  fst (accessGate (Sample.from "/report" "203.0.113.9") w1)
    = json 403 (JsonError "Access denied")
  /\ fst (accessGate (Sample.from "/admin" "203.0.113.9") w1) = Next
  /\ fst (accessGate (Sample.from "/report" "203.0.113.9") w2)
     <> json 403 (JsonError "Access denied").
Proof.
  cbv zeta.
  destruct (blacklist_blocks Sample.env 1700000000000
              (Sample.with_ip (Some "203.0.113.9") None)
              (Sample.removing "203.0.113.9")
              (Sample.world Sample.seeded Sample.admin) "203.0.113.9"
              eq_refl eq_refl) as [_ [Hdeny [Hadmin Hback]]];
    [discriminate | reflexivity |].
  split; [| split].
  - destruct (Hdeny (Sample.from "/report" "203.0.113.9") eq_refl eq_refl)
      as [_ Hoff].
    apply Hoff. vm_compute. discriminate.
  - apply (Hadmin (Sample.from "/admin" "203.0.113.9")). reflexivity.
  - apply (Hback (Sample.from "/report" "203.0.113.9")). reflexivity.
Defined.

(** X10.  A request the gate stops reaches no handler: while maintenance is
    on, every request for a path that is neither an admin path nor a static
    asset is answered with the maintenance page whatever its route, and a
    request from a blacklisted address on a non-admin path is answered by
    the gate; in both cases the database and the session are as before, so
    no report is recorded.  A request the gate lets through is answered by
    the handler of its route. *)
Theorem gate_stops_request (env : Env) (now : Z) (fault : option string)
    (rt : Route) (req : Request) (w : World) :
  let out := app env now fault rt req w in
  (isAdminPath (path req) = false -> isStaticAsset (path req) = false ->
   settings (db w) !! "maintenance_mode" = Some "true" ->
     fst out = Sent (mkResponse 200 (SendFile "public/maintenance.html"))
     /\ db (snd out) = db w /\ session (snd out) = session w)
  /\ (isAdminPath (path req) = false -> blacklisted (clientIP req) (db w) ->
      (fst out = json 403 (JsonError "Access denied")
       \/ fst out = Sent (mkResponse 200 (SendFile "public/maintenance.html")))
      /\ db (snd out) = db w /\ session (snd out) = session w)
  /\ (fst (accessGate req w) = Next ->
      out = handler env now fault rt req (snd (accessGate req w))).
Proof.
  cbv zeta. rewrite app_run.
  destruct (accessGate_reads_only req w) as [Hdb Hsess].
  split; [| split].
  - intros Hadm Hst Hm.
    apply (gate_maintenance req w Hadm Hst) in Hm. rewrite Hm.
    cbn [maintenance_page fst snd]. auto.
  - intros Hadm Hbl.
    destruct (gate_blacklisted req w Hbl Hadm) as [[H | H] _]; rewrite H;
      cbn [access_denied maintenance_page json fst snd]; auto.
  - intros Hnext. now rewrite Hnext.
Qed.

(** During maintenance a report is not recorded and the status is not
    served. *)
Lemma gate_stops_request_witness :
  let w := Sample.world (with_setting "maintenance_mode" "true" Sample.seeded)
                        Sample.visitor in
  let out := app Sample.env 1700000000000 None PostReport
                 (Sample.from "/report" "198.51.100.7") w in
  let out' := app Sample.env 1700000000000 None GetStatus
                  (Sample.from "/status" "198.51.100.7") w in
  fst out = Sent (mkResponse 200 (SendFile "public/maintenance.html"))
  /\ reports (db (snd out)) = []
  /\ fst out' = Sent (mkResponse 200 (SendFile "public/maintenance.html")).
Proof.
  cbv zeta.
  destruct (gate_stops_request Sample.env 1700000000000 None PostReport
              (Sample.from "/report" "198.51.100.7")
              (Sample.world (with_setting "maintenance_mode" "true"
                               Sample.seeded) Sample.visitor))
    as [Hm _].
  destruct (Hm eq_refl eq_refl eq_refl) as [Hpage [Hdb _]].
  destruct (gate_stops_request Sample.env 1700000000000 None GetStatus
              (Sample.from "/status" "198.51.100.7")
              (Sample.world (with_setting "maintenance_mode" "true"
                               Sample.seeded) Sample.visitor))
    as [Hm' _].
  destruct (Hm' eq_refl eq_refl eq_refl) as [Hpage' _].
  split; [exact Hpage |]. split; [now rewrite Hdb | exact Hpage'].
Defined.

(** ** The forced status, from the admin to the public answer *)

(** X11.  After an authenticated set-status with a valid value (the row
    being in place), [GET /status] answers by that value: for "up" and
    "down" the forced phrase with [count: 0], no rows and [forced: true]; for
    "auto" the status computed from the reports of the last 24 hours, which
    the forcing in between has not touched. *)
Theorem forced_status_takes_effect (env : Env) (now now' : Z)
    (fault : option string) (req : Request) (w : World) (v : string) :
  authenticated (session w) = true ->
  is_Some (settings (db w) !! "force_status") ->
  body_status (body req) = Some v ->
  In v ["up"; "down"; "auto"] ->
  let w1 := snd (handler env now fault PostAdminSetStatus req w) in
  let rows := qualifying now' (db w) in
  let count := Z.of_nat (length rows) in
  fst (status now' w1)
  = if String.eqb v "auto"
    then json 200 (JsonStatus (if count >=? 30 then "Korone is probably down"
                               else "Korone is up") count rows false)
    else json 200 (JsonStatus (if String.eqb v "up" then "Korone is up"
                               else "Korone is probably down") 0 [] true).
Proof.
  intros Hauth [x Hx] Hv Hin. cbv zeta. cbn [handler].
  rewrite requireAuth_run, Hauth, adminSetStatus_run. cbv zeta.
  assert (Ht : Js.array_includes ["up"; "down"; "auto"]
                 (body_status (body req)) = true).
  { apply valid_status_iff. rewrite Hv. cbn in Hin |- *.
    intuition (subst; auto). }
  rewrite Ht, Hv. cbn [snd default from_option]. unfold id.
  rewrite status_run. cbv zeta. cbn [db].
  rewrite update_setting_lookup, Hx.
  cbn [is_forced strict_eq fst].
  destruct (String.eqb v "auto"); cbn [negb]; reflexivity.
Qed.

(** With thirty fresh reports in the ledger: forced up, then back to
    automatic. *)
Lemma forced_status_takes_effect_witness :
  let w := Sample.world (Sample.with_reports 30 1699999999999) Sample.admin in
  let set v := handler Sample.env 1700000000000 None PostAdminSetStatus
                       (Sample.with_status (Some v)) in
  fst (status 1700000000000 (snd (set "up" w)))
    = json 200 (JsonStatus "Korone is up" 0 [] true)
  /\ fst (status 1700000000000 (snd (set "auto" (snd (set "up" w)))))
     = json 200 (JsonStatus "Korone is probably down" 30
                            (Sample.rows 30 1699999999999) false).
Proof.
  cbv zeta. split.
  - refine (forced_status_takes_effect Sample.env 1700000000000 1700000000000
              None (Sample.with_status (Some "up"))
              (Sample.world (Sample.with_reports 30 1699999999999)
                            Sample.admin) "up" eq_refl _ eq_refl _).
    + eexists. reflexivity.
    + left. reflexivity.
  - refine (forced_status_takes_effect Sample.env 1700000000000 1700000000000
              None (Sample.with_status (Some "auto"))
              (snd (handler Sample.env 1700000000000 None PostAdminSetStatus
                      (Sample.with_status (Some "up"))
                      (Sample.world (Sample.with_reports 30 1699999999999)
                                    Sample.admin)))
              "auto" eq_refl _ eq_refl _).
    + eexists. reflexivity.
    + right. right. left. reflexivity.
Defined.

(** ** The address a request counts as *)

(** X12.  The address used for the blacklist and for the rate limit is the
    forwarded-for header whenever that header is present and non-empty, and
    the peer address only otherwise.  So a request whose header names an
    address that is not blacklisted is never answered 403, and one whose
    header names an address without a recent report has its report accepted
    under that address, whatever the peer address of the connection is. *)
Theorem forwarded_header_decides (req : Request) (w : World) (T : Z) :
  (forall h, header_x_forwarded_for req = Some h -> h <> "" ->
     clientIP req = h
     /\ (~ blacklisted h (db w) ->
         fst (accessGate req w) <> json 403 (JsonError "Access denied"))
     /\ (~ has_recent h T (db w) ->
         fst (report T req w) = json 200 JsonSuccess
         /\ reports (db (snd (report T req w)))
            = reports (db w) ++ [mkReport (reports_seq (db w) + 1) h T]))
  /\ (header_x_forwarded_for req = None
      \/ header_x_forwarded_for req = Some "" ->
      clientIP req = socket_remoteAddress req).
Proof.
  split.
  - intros h Hh Hne.
    assert (Hc : clientIP req = h).
    { unfold clientIP. rewrite Hh. cbn. now destruct h. }
    split; [exact Hc |]. split.
    + intros Hfree. apply gate_not_blacklisted. now rewrite Hc.
    + intros Hnew. rewrite report_run. cbv zeta. rewrite Hc.
      assert (Hex : existsb (Sql.recent_row h (T - 24 * 60 * 60 * 1000))
                            (reports (db w)) = false).
      { apply not_true_iff_false. intros H.
        now apply has_recent_existsb in H. }
      rewrite Hex. split; reflexivity.
  - unfold clientIP. intros [-> | ->]; reflexivity.
Qed.

(** A blacklisted peer that already reported today gets through the gate
    and reports again by naming another address in the header. *)
Lemma forwarded_header_decides_witness :
  let d := Sql.insert_report "203.0.113.9" 1699999000000
             (Sample.banned "203.0.113.9") in
  let w := Sample.world d None in
  let req := Visit.forwarded "/report" "198.51.100.7" "203.0.113.9" in
  fst (accessGate (Sample.from "/report" "203.0.113.9") w)
    = json 403 (JsonError "Access denied")
  /\ fst (accessGate req w) <> json 403 (JsonError "Access denied")
  /\ fst (report 1700000000000 req w) = json 200 JsonSuccess.
Proof.
  cbv zeta. split; [reflexivity |].
  destruct (forwarded_header_decides
              (Visit.forwarded "/report" "198.51.100.7" "203.0.113.9")
              (Sample.world
                 (Sql.insert_report "203.0.113.9" 1699999000000
                    (Sample.banned "203.0.113.9")) None)
              1700000000000) as [Hhdr _].
  destruct (Hhdr "198.51.100.7" eq_refl) as [_ [Hgate Hrep]];
    [discriminate |].
  split.
  - apply Hgate. intros [e [[<- | []] He]]. vm_compute in He. discriminate He.
  - apply Hrep. intros [r [[<- | []] [Hip _]]].
    vm_compute in Hip. discriminate Hip.
Defined.

(** ** The admin dashboard *)

Lemma adminDashboard_run (now : Z) (w : World) :
  adminDashboard now w =
  (json 200
     (JsonDashboard
        (order_by_desc g_count (group_by_ip (qualifying now (db w))))
        (order_by_desc bl_timestamp (blacklisted_ips (db w)))
        (settings (db w))),
   mkWorld (db w) (session w)
           (trace w ++ [SelectReportsGrouped (now - 24 * 60 * 60 * 1000);
                        SelectBlacklistAll; SelectSettingsAll])).
Proof.
  unfold adminDashboard, db_all_dashboard_reports, db_all_blacklist,
    db_all_settings. run.
  rewrite qualifying_window, <- !app_assoc. reflexivity.
Qed.

(** *** Ordering *)

Lemma insert_desc_perm {A} (key : A -> Z) (x : A) (l : list A) :
  Permutation (insert_desc key x l) (x :: l).
Proof.
  induction l as [| y l IH]; cbn [insert_desc]; [reflexivity |].
  destruct (key y <? key x); [reflexivity |].
  rewrite IH. apply perm_swap.
Qed.

Lemma order_by_desc_perm {A} (key : A -> Z) (l : list A) :
  Permutation (order_by_desc key l) l.
Proof.
  induction l as [| x l IH]; cbn; [reflexivity |].
  fold (order_by_desc key l). rewrite insert_desc_perm. now constructor.
Qed.

Lemma insert_desc_sorted {A} (key : A -> Z) (x : A) (l : list A) :
  descending key l -> descending key (insert_desc key x l).
Proof.
  unfold descending. induction l as [| y l IH]; cbn [insert_desc]; intros Hs.
  - repeat constructor.
  - destruct (Z.ltb_spec (key y) (key x)) as [Hlt | Hge].
    + constructor; [exact Hs |]. constructor. lia.
    + apply Sorted_inv in Hs as [Hs Hhd].
      constructor; [now apply IH |].
      destruct l as [| z l]; cbn [insert_desc].
      * constructor. lia.
      * apply HdRel_inv in Hhd.
        destruct (key z <? key x); constructor; lia.
Qed.

Lemma order_by_desc_sorted {A} (key : A -> Z) (l : list A) :
  descending key (order_by_desc key l).
Proof.
  induction l as [| x l IH]; cbn.
  - constructor.
  - fold (order_by_desc key l). now apply insert_desc_sorted.
Qed.

(** *** Grouping *)

Lemma count_ip_snoc (a : string) (rows : list Report) (r : Report) :
  count_ip a (rows ++ [r])
  = count_ip a rows + (if String.eqb (rep_ip r) a then 1 else 0).
Proof.
  unfold count_ip. rewrite List.filter_app, List.length_app. cbn [List.filter].
  destruct (String.eqb (rep_ip r) a); cbn [length]; lia.
Qed.

Lemma count_ip_none (a : string) (rows : list Report) :
  (forall r, In r rows -> rep_ip r <> a) -> count_ip a rows = 0.
Proof.
  unfold count_ip. induction rows as [| x rows IH]; cbn [List.filter];
    intros Hno; [reflexivity |].
  destruct (String.eqb_spec (rep_ip x) a) as [Heq | Hne].
  - exfalso. apply (Hno x); [now left | exact Heq].
  - apply IH. intros r Hr. apply Hno. now right.
Qed.

Lemma summarises_other (rows : list Report) (r : Report) (g : ReportGroup) :
  summarises rows g -> g_ip g <> rep_ip r -> summarises (rows ++ [r]) g.
Proof.
  intros [Hc [[r0 [Hin [Hip Hts]]] Hmax]] Hne. split; [| split].
  - rewrite count_ip_snoc, Hc.
    destruct (String.eqb_spec (rep_ip r) (g_ip g)); [congruence | lia].
  - exists r0. split; [apply in_or_app; now left | tauto].
  - intros r' Hr' Hip'. apply in_app_or in Hr' as [Hr' | [<- | []]].
    + now apply Hmax.
    + congruence.
Qed.

Lemma summarises_bump (rows : list Report) (r : Report) (g : ReportGroup) :
  summarises rows g -> g_ip g = rep_ip r ->
  summarises (rows ++ [r])
    (mkReportGroup (g_ip g) (g_count g + 1)
                   (Z.max (g_last_report g) (rep_timestamp r))).
Proof.
  intros [Hc [[r0 [Hin [Hip Hts]]] Hmax]] Heq.
  unfold summarises. cbn [g_ip g_count g_last_report]. split; [| split].
  - rewrite count_ip_snoc, Hc, Heq, String.eqb_refl. reflexivity.
  - destruct (Z.max_spec (g_last_report g) (rep_timestamp r))
      as [[_ ->] | [_ ->]].
    + exists r. split; [apply in_or_app; right; now left | auto].
    + exists r0. split; [apply in_or_app; now left | auto].
  - intros r' Hr' Hip'. apply in_app_or in Hr' as [Hr' | [<- | []]].
    + specialize (Hmax r' Hr' Hip'). lia.
    + lia.
Qed.

Lemma summarises_new (rows : list Report) (r : Report) :
  (forall r', In r' rows -> rep_ip r' <> rep_ip r) ->
  summarises (rows ++ [r]) (mkReportGroup (rep_ip r) 1 (rep_timestamp r)).
Proof.
  intros Hno. unfold summarises. cbn [g_ip g_count g_last_report].
  split; [| split].
  - rewrite count_ip_snoc, (count_ip_none _ _ Hno), String.eqb_refl.
    reflexivity.
  - exists r. split; [apply in_or_app; right; now left | auto].
  - intros r' Hr' Hip'. apply in_app_or in Hr' as [Hr' | [<- | []]].
    + exfalso. now apply (Hno r').
    + lia.
Qed.

Lemma group_add_ips (r : Report) (gs : list ReportGroup) :
  List.map g_ip (group_add r gs)
  = if existsb (fun g => String.eqb (g_ip g) (rep_ip r)) gs
    then List.map g_ip gs
    else List.map g_ip gs ++ [rep_ip r].
Proof.
  induction gs as [| g gs IH]; cbn [group_add existsb List.map app];
    [reflexivity |].
  destruct (String.eqb (g_ip g) (rep_ip r)); cbn [orb List.map g_ip];
    [reflexivity |].
  rewrite IH. now destruct (existsb _ gs).
Qed.

Lemma existsb_ip_In (a : string) (gs : list ReportGroup) :
  existsb (fun g => String.eqb (g_ip g) a) gs = true
  <-> In a (List.map g_ip gs).
Proof.
  rewrite existsb_exists, in_map_iff.
  split; intros [g Hg]; exists g; rewrite String.eqb_eq in *; tauto.
Qed.

Lemma group_add_summarises (rows : list Report) (r : Report)
    (gs : list ReportGroup) :
  List.NoDup (List.map g_ip gs) ->
  Forall (summarises rows) gs ->
  (forall r', In r' rows -> rep_ip r' = rep_ip r ->
              In (rep_ip r) (List.map g_ip gs)) ->
  Forall (summarises (rows ++ [r])) (group_add r gs).
Proof.
  induction gs as [| g gs IH]; cbn [group_add List.map];
    intros Hnd Hall Hseen.
  - constructor; [| constructor]. apply summarises_new.
    intros r' Hr' Hip. exact (Hseen r' Hr' Hip).
  - apply List.NoDup_cons_iff in Hnd as [Hg Hnd].
    apply Forall_cons_iff in Hall as [Hsg Hall].
    destruct (String.eqb_spec (g_ip g) (rep_ip r)) as [Heq | Hne].
    + constructor; [now apply summarises_bump |].
      rewrite List.Forall_forall in *. intros g' Hg'.
      apply summarises_other; [now apply Hall |].
      intros Heq'. apply Hg. rewrite Heq, <- Heq'.
      apply in_map_iff. now exists g'.
    + constructor; [now apply summarises_other |].
      apply IH; trivial.
      intros r' Hr' Hip. destruct (Hseen r' Hr' Hip) as [H | H];
        [congruence | exact H].
Qed.

Lemma group_add_grouped (rows : list Report) (r : Report)
    (gs : list ReportGroup) :
  grouped rows gs -> grouped (rows ++ [r]) (group_add r gs).
Proof.
  intros [Hnd [Hall Hcov]]. split; [| split].
  - rewrite group_add_ips.
    destruct (existsb _ gs) eqn:Hex; [exact Hnd |].
    apply NoDup_snoc; [exact Hnd |].
    intros Hin. apply existsb_ip_In in Hin. congruence.
  - apply group_add_summarises; trivial.
    intros r' Hr' Hip. rewrite <- Hip. now apply Hcov.
  - intros r' Hr'. rewrite group_add_ips.
    apply in_app_or in Hr' as [Hr' | [<- | []]].
    + destruct (existsb _ gs); [now apply Hcov |].
      apply in_or_app. left. now apply Hcov.
    + destruct (existsb _ gs) eqn:Hex.
      * now apply existsb_ip_In.
      * apply in_or_app. right. now left.
Qed.

Lemma group_by_ip_grouped (rows : list Report) :
  grouped rows (group_by_ip rows).
Proof.
  unfold group_by_ip.
  assert (Hgen : forall rest seen gs,
             grouped seen gs ->
             grouped (seen ++ rest)
                     (fold_left (fun gs r => group_add r gs) rest gs)).
  { induction rest as [| r rest IH]; intros seen gs Hg; cbn [fold_left].
    - now rewrite app_nil_r.
    - change (seen ++ r :: rest) with (seen ++ [r] ++ rest).
      rewrite app_assoc. apply IH. now apply group_add_grouped. }
  apply (Hgen rows [] []).
  split; [constructor |]. split; [constructor |]. intros r [].
Qed.

Lemma grouped_perm (rows : list Report) (gs gs' : list ReportGroup) :
  Permutation gs gs' -> grouped rows gs -> grouped rows gs'.
Proof.
  intros Hp [Hnd [Hall Hcov]]. split; [| split].
  - eapply Permutation_NoDup; [apply Permutation_map, Hp | exact Hnd].
  - eapply Permutation_Forall; eauto.
  - intros r Hr. eapply Permutation_in; [apply Permutation_map, Hp |].
    now apply Hcov.
Qed.

(** X13.  For an authenticated admin the dashboard lists the reports of the
    last 24 hours grouped by address: every address with such a report has
    exactly one group, each group carries the number of those reports from
    its address and the newest of their timestamps, and the groups come
    with the highest count first. *)
Theorem dashboard_groups (env : Env) (now : Z) (fault : option string)
    (req : Request) (w : World) :
  authenticated (session w) = true ->
  exists groups entries store,
    fst (handler env now fault GetAdminDashboard req w)
      = json 200 (JsonDashboard groups entries store)
    /\ grouped (qualifying now (db w)) groups
    /\ (forall g, In g groups -> 1 <= g_count g)
    /\ descending g_count groups.
Proof.
  intros Hauth. cbn [handler].
  rewrite requireAuth_run, Hauth, adminDashboard_run. cbn [fst].
  do 3 eexists. split; [reflexivity |].
  assert (Hg : grouped (qualifying now (db w))
                 (order_by_desc g_count (group_by_ip (qualifying now (db w))))).
  { eapply grouped_perm; [| apply group_by_ip_grouped].
    symmetry. apply order_by_desc_perm. }
  split; [exact Hg |]. split; [| apply order_by_desc_sorted].
  intros g Hin. destruct Hg as [_ [Hall _]].
  rewrite List.Forall_forall in Hall.
  destruct (Hall g Hin) as [Hc [[r [Hr [Hip _]]] _]].
  rewrite Hc. unfold count_ip.
  assert (Hin' : In r (List.filter (fun r => String.eqb (rep_ip r) (g_ip g))
                         (qualifying now (db w)))).
  { apply filter_In. split; [exact Hr | now apply String.eqb_eq]. }
  destruct (List.filter _ _); [destruct Hin' | cbn [length]; lia].
Qed.

(** The sample ledger at 1700000000000: the address with two recent reports
    comes first, the report that is too old is not counted. *)
Lemma dashboard_groups_witness :
  let out := handler Sample.env 1700000000000 None GetAdminDashboard
               (Sample.from "/admin/dashboard" "10.0.0.1")
               (Sample.world Visit.ledger Sample.admin) in
  (exists groups entries store,
     fst out = json 200 (JsonDashboard groups entries store)
     /\ grouped (qualifying 1700000000000 Visit.ledger) groups
     /\ (forall g, In g groups -> 1 <= g_count g)
     /\ descending g_count groups)
  /\ (exists entries store,
        fst out
        = json 200 (JsonDashboard
                      [mkReportGroup "203.0.113.9" 2 1699990000000;
                       mkReportGroup "198.51.100.7" 1 1699950000000]
                      entries store)).
Proof.
  cbv zeta. split.
  - exact (dashboard_groups Sample.env 1700000000000 None
             (Sample.from "/admin/dashboard" "10.0.0.1")
             (Sample.world Visit.ledger Sample.admin) eq_refl).
  - do 2 eexists. reflexivity.
Defined.

(** X14.  The dashboard also returns every blacklist entry, newest first,
    and the settings as they are stored.  It is a pure read: it executes the
    three SELECT statements and leaves database and session unchanged. *)
Theorem dashboard_reads (env : Env) (now : Z) (fault : option string)
    (req : Request) (w : World) :
  authenticated (session w) = true ->
  let out := handler env now fault GetAdminDashboard req w in
  (exists groups entries,
     fst out = json 200 (JsonDashboard groups entries (settings (db w)))
     /\ Permutation entries (blacklisted_ips (db w))
     /\ descending bl_timestamp entries)
  /\ db (snd out) = db w /\ session (snd out) = session w
  /\ trace (snd out)
     = trace w ++ [SelectReportsGrouped (now - 86400000);
                   SelectBlacklistAll; SelectSettingsAll].
Proof.
  intros Hauth. cbv zeta. cbn [handler].
  rewrite requireAuth_run, Hauth, adminDashboard_run. cbn [fst snd db session trace].
  split; [| rewrite day_ms; repeat split].
  do 2 eexists. split; [reflexivity |].
  split; [apply order_by_desc_perm | apply order_by_desc_sorted].
Qed.

(** The two entries of the sample ledger, the newer one first. *)
Lemma dashboard_reads_witness :
  let out := handler Sample.env 1700000000000 None GetAdminDashboard
               (Sample.from "/admin/dashboard" "10.0.0.1")
               (Sample.world Visit.ledger Sample.admin) in
  db (snd out) = Visit.ledger
  /\ (exists groups,
        fst out
        = json 200 (JsonDashboard groups
                      [mkBlacklistEntry 3 "192.0.2.3" 1699900000000 "abuse";
                       mkBlacklistEntry 1 "192.0.2.1" 1699000000000 "spam"]
                      (settings Sample.seeded))).
Proof.
  cbv zeta.
  destruct (dashboard_reads Sample.env 1700000000000 None
              (Sample.from "/admin/dashboard" "10.0.0.1")
              (Sample.world Visit.ledger Sample.admin) eq_refl)
    as [_ [Hdb _]].
  split; [exact Hdb |]. eexists. reflexivity.
Defined.

(** ** The two classes of paths the gate sets apart *)

Lemma startsWith_prefix (p s : string) :
  Js.startsWith s p = true <-> exists rest, s = String.append p rest.
Proof.
  revert s. induction p as [| c p IH]; intros s; cbn [Js.startsWith].
  - split; [intros _; now exists s | reflexivity].
  - destruct s as [| d s].
    + split; [discriminate | intros [rest Hrest]; discriminate Hrest].
    + rewrite andb_true_iff, Ascii.eqb_eq, IH. cbn [String.append]. split.
      * intros [-> [rest ->]]. now exists rest.
      * intros [rest [= -> ->]]. split; [reflexivity | now exists rest].
Qed.

Lemma extension_listed (e : string) :
  existsb (String.eqb (Js.toLowerCase e)) asset_extensions = true
  <-> In (Js.toLowerCase e) asset_extensions.
Proof.
  rewrite existsb_exists. split.
  - intros [x [Hx Heq]]. apply String.eqb_eq in Heq. now rewrite Heq.
  - intros Hin. exists (Js.toLowerCase e). split; [exact Hin |].
    apply String.eqb_refl.
Qed.

(** X15.  A path counts as a static asset exactly when it ends in a dot
    followed by one of the eleven listed extensions, written in any mix of
    upper and lower case; the dot may be anywhere, so only what follows the
    last such dot matters.  A path counts as an admin path exactly when it
    begins with "/admin", whatever follows, a longer word included. *)
Theorem path_classes (p : string) :
  (isStaticAsset p = true
   <-> exists stem ext,
         p = String.append stem (String "." ext)
         /\ In (Js.toLowerCase ext)
               ["png"; "jpg"; "jpeg"; "gif"; "svg"; "css"; "js"; "ttf";
                "woff"; "woff2"; "ico"])
  /\ (isAdminPath p = true <-> exists rest, p = String.append "/admin" rest).
Proof.
  split; [| apply startsWith_prefix].
  induction p as [| c p IH]; cbn [isStaticAsset].
  - split; [discriminate |].
    intros [[| d stem] [ext [Hp _]]]; discriminate Hp.
  - rewrite orb_true_iff, andb_true_iff, Ascii.eqb_eq, extension_listed, IH.
    split.
    + intros [[-> Hext] | [stem [ext [-> Hext]]]].
      * exists "", p. split; [reflexivity | exact Hext].
      * exists (String c stem), ext. split; [reflexivity | exact Hext].
    + intros [[| d stem] [ext [Hp Hext]]]; cbn [String.append] in Hp.
      * injection Hp as -> ->. left. split; [reflexivity | exact Hext].
      * injection Hp as -> ->. right. now exists stem, ext.
Qed.

(** An image with an upper-case extension, and a longer word that begins
    with "/admin". *)
Lemma path_classes_witness :
  isStaticAsset "/img/Logo.v2.PNG" = true
  /\ isAdminPath "/administrator" = true.
Proof.
  split.
  - apply (proj1 (path_classes "/img/Logo.v2.PNG")).
    exists "/img/Logo.v2", "PNG". split; [reflexivity |].
    vm_compute. auto.
  - apply (proj2 (path_classes "/administrator")).
    exists "istrator". reflexivity.
Defined.

(** ** From a report to the public status *)

Lemma qualifying_after_insert (A : string) (T now : Z) (d : DB) :
  qualifying now (Sql.insert_report A T d)
  = qualifying now d
      ++ (if T >? now - 86400000
          then [mkReport (reports_seq d + 1) A T] else []).
Proof.
  unfold qualifying, Sql.insert_report. cbn [reports].
  rewrite List.filter_app. cbn [List.filter rep_timestamp].
  now destruct (T >? now - 86400000).
Qed.

Lemma status_unforced (now : Z) (w : World) :
  is_forced (settings (db w) !! "force_status") = false ->
  fst (status now w)
  = json 200 (JsonStatus
                (if Z.of_nat (length (qualifying now (db w))) >=? 30
                 then down_phrase else up_phrase)
                (Z.of_nat (length (qualifying now (db w))))
                (qualifying now (db w)) false).
Proof. intros Hf. rewrite status_run. cbv zeta. now rewrite Hf. Qed.

(** X16.  While no status is forced, an accepted report shows in the public
    status: asked at a time less than 24 hours after the report, the status
    lists the rows it listed before plus the new row, and its count is one
    higher; a report refused for the rate limit changes nothing in it. *)
Theorem report_counts_in_status (A : string) (T now : Z) (req : Request)
    (w : World) :
  clientIP req = A ->
  is_forced (settings (db w) !! "force_status") = false ->
  now - 86400000 < T ->
  let rows := qualifying now (db w) in
  let count := Z.of_nat (length rows) in
  let w1 := snd (report T req w) in
  (~ has_recent A T (db w) ->
     fst (status now w1)
     = json 200 (JsonStatus
                   (if (count + 1) >=? 30 then "Korone is probably down"
                    else "Korone is up")
                   (count + 1)
                   (rows ++ [mkReport (reports_seq (db w) + 1) A T]) false))
  /\ (has_recent A T (db w) -> fst (status now w1) = fst (status now w)).
Proof.
  intros HA Hf HT. cbv zeta. rewrite report_run. cbv zeta. rewrite HA. split.
  - intros Hnew.
    assert (Hex : existsb (Sql.recent_row A (T - 24 * 60 * 60 * 1000))
                          (reports (db w)) = false).
    { apply not_true_iff_false. intros H. now apply has_recent_existsb in H. }
    rewrite Hex. cbn [snd]. rewrite status_unforced by exact Hf.
    cbn [db]. rewrite qualifying_after_insert.
    assert (Hin : (T >? now - 86400000) = true) by (apply Z.gtb_lt; lia).
    rewrite Hin, List.length_app. cbn [length].
    replace (Z.of_nat (length (qualifying now (db w)) + 1))
      with (Z.of_nat (length (qualifying now (db w))) + 1) by lia.
    reflexivity.
  - intros Hrec. apply has_recent_existsb in Hrec. rewrite Hrec. cbn [snd].
    now rewrite !status_unforced by exact Hf.
Qed.

(** The thirtieth report of the day turns the status to down. *)
Lemma report_counts_in_status_witness :
  let w := Sample.world (Sample.with_reports 29 1699999999999) None in
  let w1 := snd (report 1700000000000
                   (Sample.from "/report" "198.51.100.7") w) in
  fst (status 1700000001000 w)
    = json 200 (JsonStatus "Korone is up" 29
                           (Sample.rows 29 1699999999999) false)
  /\ fst (status 1700000001000 w1)
     = json 200 (JsonStatus "Korone is probably down" 30
                   (Sample.rows 29 1699999999999
                      ++ [mkReport 30 "198.51.100.7" 1700000000000]) false).
Proof.
  cbv zeta. split; [reflexivity |].
  destruct (report_counts_in_status "198.51.100.7" 1700000000000
              1700000001000 (Sample.from "/report" "198.51.100.7")
              (Sample.world (Sample.with_reports 29 1699999999999) None)
              eq_refl eq_refl) as [Hnew _]; [lia |].
  apply Hnew. intros [r [Hin [Hip _]]].
  assert (Hall : forall n t r', In r' (Sample.rows n t) ->
                                rep_ip r' = "203.0.113.9").
  { induction n as [| n IH]; intros t r' Hr'; [destruct Hr' |].
    cbn [Sample.rows] in Hr'. apply in_app_or in Hr' as [Hr' | [<- | []]];
      [now apply (IH t) | reflexivity]. }
  apply Hall in Hin. rewrite Hin in Hip. discriminate Hip.
Defined.

(** X17.  Reports are never deleted, they only leave the window: on the
    same table the rows counted at a later time are among those counted at
    an earlier time, and once the newest row is 24 hours old an unforced
    status is up again with count 0 and no rows. *)
Theorem status_recovers (now now' : Z) (w : World) :
  is_forced (settings (db w) !! "force_status") = false ->
  (now <= now' ->
     (forall r, In r (qualifying now' (db w)) -> In r (qualifying now (db w)))
     /\ (length (qualifying now' (db w))
         <= length (qualifying now (db w)))%nat)
  /\ ((forall r, In r (reports (db w)) -> rep_timestamp r + 86400000 <= now) ->
      fst (status now w) = json 200 (JsonStatus "Korone is up" 0 [] false)).
Proof.
  intros Hf. split.
  - intros Hle. split.
    + intros r Hr. apply qualifying_In in Hr as [Hin Hts].
      apply qualifying_In. split; [exact Hin | lia].
    + unfold qualifying.
      induction (reports (db w)) as [| x l IH]; cbn [List.filter length];
        [lia |].
      destruct (Z.gtb_spec (rep_timestamp x) (now' - 86400000)) as [H' | H'];
        destruct (Z.gtb_spec (rep_timestamp x) (now - 86400000)) as [H | H];
        cbn [length]; lia.
  - intros Hold. rewrite status_unforced by exact Hf.
    assert (Hnone : qualifying now (db w) = []).
    { unfold qualifying.
      induction (reports (db w)) as [| x l IH]; cbn [List.filter];
        [reflexivity |].
      destruct (Z.gtb_spec (rep_timestamp x) (now - 86400000)) as [H | H].
      - specialize (Hold x (or_introl eq_refl)). lia.
      - apply IH. intros r Hr. apply Hold. now right. }
    rewrite Hnone. reflexivity.
Qed.

(** Thirty reports make the status down; 24 hours after the last of them it
    is up again, the rows still being in the table. *)
Lemma status_recovers_witness :
  let w := Sample.world (Sample.with_reports 30 1699999999999) None in
  fst (status 1700000000000 w)
    = json 200 (JsonStatus "Korone is probably down" 30
                           (Sample.rows 30 1699999999999) false)
  /\ fst (status 1700086399999 w)
     = json 200 (JsonStatus "Korone is up" 0 [] false)
  /\ length (reports (db w)) = 30%nat.
Proof.
  cbv zeta. split; [reflexivity |]. split; [| reflexivity].
  destruct (status_recovers 1700086399999 1700086399999
              (Sample.world (Sample.with_reports 30 1699999999999) None)
              eq_refl) as [_ Hup].
  apply Hup. intros r Hr.
  assert (Hall : forall n t r', In r' (Sample.rows n t) ->
                                rep_timestamp r' = t).
  { induction n as [| n IH]; intros t r' Hr'; [destruct Hr' |].
    cbn [Sample.rows] in Hr'. apply in_app_or in Hr' as [Hr' | [<- | []]];
      [now apply (IH t) | reflexivity]. }
  apply Hall in Hr. rewrite Hr. lia.
Defined.
